(** * FileSorterPro: the classification and placement engine of filesorter.py

    A shallow embedding of [src/filesorter.py] and the properties of its
    classifier, mover and orchestrator.

    Modelling conventions.
    - File and folder names are [string]s (ASCII); [str.lower] is modelled on
      the ASCII letters.
    - [pathlib.PurePath.stem] and [.suffix] follow the reference
      implementation: with [i = name.rfind('.')], the suffix is [name[i:]]
      when [0 < i < len(name) - 1] and [''] otherwise.
    - [extension_map] is only ever read with [dict.get]: it is a
      [gmap string string].  Dictionaries whose iteration order is observable
      ([folder_names], [filename_sorting_rules], [file_counts]) are
      insertion-ordered association lists.
    - A Python [set] is iterated in an unspecified order: [all_categories] is
      a list and the theorems hold for every order.
    - Exceptions are values of type [exn]; a computation that may raise
      returns a [result], and a loop that an exception leaves returns the
      state it reached together with the exception.
    - The working directory is the listing of its direct children, each a
      file or a folder with its own listing; names are compared exactly and
      category names are single path components.  The operating system's
      refusal of a rename is a parameter, [denied]. *)

From Stdlib Require Import Ascii String List Arith Bool Lia.
From stdpp Require Import base option list strings gmap.

Import ListNotations.
Local Open Scope string_scope.
Local Open Scope list_scope.

(** ** Exceptions *)

Inductive exn : Type :=
| KeyError (key : string)
| ValueError
| FileExistsError (path : string)
| FileNotFoundError (path : string)
| PermissionError (path : string)
| OSError (path : string).

Inductive result (A : Type) : Type :=
| Ok (a : A)
| Raise (e : exn).

Arguments Ok {A} a.
Arguments Raise {A} e.

(** ** Strings: the [str] methods the program uses *)

Module Str.

(** [str.startswith]: [startswith s p] is [s.startswith(p)]. *)
Fixpoint startswith (s p : string) {struct p} : bool :=
  match p with
  | EmptyString => true
  | String b p' =>
      match s with
      | EmptyString => false
      | String a s' => if Ascii.eqb a b then startswith s' p' else false
      end
  end.

(** [str.rfind] for a single character; [None] stands for [-1]. *)
Fixpoint rfind (c : ascii) (s : string) : option nat :=
  match s with
  | EmptyString => None
  | String a t =>
      match rfind c t with
      | Some i => Some (S i)
      | None => if Ascii.eqb a c then Some 0 else None
      end
  end.

(** The slices [s[i:]] and [s[:i]]. *)
Fixpoint slice_from (i : nat) (s : string) : string :=
  match i, s with
  | 0, _ => s
  | S _, EmptyString => EmptyString
  | S j, String _ t => slice_from j t
  end.

Fixpoint slice_to (i : nat) (s : string) : string :=
  match i, s with
  | 0, _ => EmptyString
  | S _, EmptyString => EmptyString
  | S j, String a t => String a (slice_to j t)
  end.

Definition lower_char (a : ascii) : ascii :=
  let n := nat_of_ascii a in
  if Nat.leb 65 n && Nat.leb n 90 then ascii_of_nat (n + 32) else a.

(** [str.lower]. *)
Fixpoint lower (s : string) : string :=
  match s with
  | EmptyString => EmptyString
  | String a t => String (lower_char a) (lower t)
  end.

(** [c in s] for a single character. *)
Fixpoint contains (c : ascii) (s : string) : bool :=
  match s with
  | EmptyString => false
  | String a t => Ascii.eqb a c || contains c t
  end.

End Str.

(** ** pathlib: stem and suffix of a final path component *)

Module Path.

Definition has_suffix (name : string) (i : nat) : bool :=
  Nat.ltb 0 i && Nat.ltb i (String.length name - 1).

Definition suffix (name : string) : string :=
  match Str.rfind "." name with
  | Some i => if has_suffix name i then Str.slice_from i name else ""
  | None => ""
  end.

Definition stem (name : string) : string :=
  match Str.rfind "." name with
  | Some i => if has_suffix name i then Str.slice_to i name else name
  | None => name
  end.

End Path.

(** ** Rule table and extension index *)

(** [folder_names]: category -> set of extensions, in insertion order. *)
Abbreviation rule_table := (list (string * list string)).

(** [filename_sorting_rules]: category -> list of prefixes. *)
Abbreviation filename_rules := (list (string * list string)).

Definition map_extensions_to_folder (folder_names : rule_table)
  : gmap string string :=
  fold_left
    (fun extension_map '(folder, extensions) =>
       fold_left (fun m extension => <[extension := folder]> m)
                 extensions extension_map)
    folder_names ∅.

(** ** Classifier: files *)

(** [file_name.suffix[1:].lower()] *)
Definition file_extension (file_name : string) : string :=
  Str.lower (Str.slice_from 1 (Path.suffix file_name)).

(** [any(file_stem.startswith(pattern) for pattern in patterns)] *)
Definition any_startswith (file_stem : string) (patterns : list string) : bool :=
  existsb (Str.startswith file_stem) patterns.

(** The [for folder, patterns in filename_sorting_rules.items()] loop with its
    early [return]; [None] when the loop falls through. *)
Fixpoint match_filename_rules (file_stem : string) (rules : filename_rules)
  : option string :=
  match rules with
  | [] => None
  | (folder, patterns) :: rest =>
      if any_startswith file_stem patterns then Some folder
      else match_filename_rules file_stem rest
  end.

Definition determine_target_folder (file_name : string)
    (filename_sorting_rules : filename_rules)
    (extension_map : gmap string string) (default_folder : string) : string :=
  let file_stem := Path.stem file_name in
  let file_extension := file_extension file_name in
  match match_filename_rules file_stem filename_sorting_rules with
  | Some folder => folder
  | None => default (default_folder) (extension_map !! file_extension)
  end.

(** ** Insertion-ordered dictionaries

    [get], [put] and [remove] are [d.get(k)], [d[k] = v] and [del d[k]] on a
    [dict] whose items are listed in insertion order: [put] keeps the position
    of a key that is present and appends a new one. *)

Module Dict.

Fixpoint get {V : Type} (k : string) (d : list (string * V)) : option V :=
  match d with
  | [] => None
  | (k', v) :: rest => if decide (k = k') then Some v else get k rest
  end.

Fixpoint put {V : Type} (k : string) (v : V) (d : list (string * V))
  : list (string * V) :=
  match d with
  | [] => [(k, v)]
  | (k', v') :: rest =>
      if decide (k = k') then (k, v) :: rest else (k', v') :: put k v rest
  end.

Definition remove {V : Type} (k : string) (d : list (string * V))
  : list (string * V) :=
  filter (fun kv => kv.1 ≠ k) d.

Definition keys {V : Type} (d : list (string * V)) : list string := fst <$> d.

End Dict.

(** ** Directory entries

    A directory entry is a file or a folder with its own entries; a listing
    gives the entries of a directory in the order [iterdir] yields them. *)

#[local] Set Warnings "-register-all".

Inductive node : Type :=
| File
| Dir (children : list (string * node)).

Abbreviation listing := (list (string * node)).

Definition is_file (n : node) : bool :=
  match n with File => true | Dir _ => false end.

Definition is_dir (n : node) : bool :=
  match n with File => false | Dir _ => true end.

(** ** Classifier: folders *)

(** Python truthiness of [extension_map.get(..., None)]: [None] and the empty
    string are falsy. *)
Definition truthy (ext_category : option string) : option string :=
  match ext_category with
  | Some c => if decide (c = "") then None else Some c
  | None => None
  end.

(** [{category: 0 for category in all_categories}] *)
Definition init_counts (all_categories : list string) : list (string * nat) :=
  fold_left (fun d category => Dict.put category 0 d) all_categories [].

(** One iteration of the loop over [folder_path.iterdir()]. *)
Definition count_item (extension_map : gmap string string)
    (acc : list (string * nat) * nat) (item : string * node)
  : result (list (string * nat) * nat) :=
  let '(file_counts, total_files) := acc in
  if is_file item.2 then
    let total_files := total_files + 1 in
    match truthy (extension_map !! file_extension item.1) with
    | Some ext_category =>
        Ok (Dict.put ext_category
              (default 0 (Dict.get ext_category file_counts) + 1) file_counts,
            total_files)
    | None =>
        match Dict.get "Others" file_counts with
        | Some n => Ok (Dict.put "Others" (n + 1) file_counts, total_files)
        | None => Raise (KeyError "Others")
        end
    end
  else Ok acc.

Fixpoint count_items (extension_map : gmap string string) (items : listing)
    (acc : list (string * nat) * nat) : result (list (string * nat) * nat) :=
  match items with
  | [] => Ok acc
  | item :: rest =>
      match count_item extension_map acc item with
      | Ok acc' => count_items extension_map rest acc'
      | Raise e => Raise e
      end
  end.

(** [max(file_counts.items(), key=lambda x: x[1])]: the first item with the
    greatest count; [ValueError] on an empty dictionary. *)
Definition max_by_count (items : list (string * nat)) : result (string * nat) :=
  match items with
  | [] => Raise ValueError
  | x :: rest =>
      Ok (fold_left (fun best y => if Nat.ltb best.2 y.2 then y else best) rest x)
  end.

(** [(predominant_count / total_files) > 0.5].  Python's true division of two
    integers is correctly rounded, so for [total_files] below [2^53] the
    quotient exceeds [0.5] exactly when [2 * count > total]. *)
Definition exceeds_half (count total : nat) : bool := Nat.ltb total (2 * count).

Definition classify_folder_by_content (items : listing)
    (extension_map : gmap string string) (all_categories : list string)
  : result string :=
  match count_items extension_map items (init_counts all_categories, 0) with
  | Raise e => Raise e
  | Ok (file_counts, total_files) =>
      if decide (total_files = 0) then Ok "Others"
      else
        match max_by_count file_counts with
        | Raise e => Raise e
        | Ok (predominant_category, predominant_count) =>
            if exceeds_half predominant_count total_files
            then Ok predominant_category
            else Ok "Others"
        end
  end.

(** [set(folder_names.keys()) | set(filename_sorting_rules.keys())] *)
Definition combine_categories (folder_names : rule_table)
    (filename_sorting_rules : filename_rules) : list string :=
  remove_dups (Dict.keys folder_names ++ Dict.keys filename_sorting_rules).

(** ** The log *)

Inductive level : Type := INFO | WARNING | ERROR.

Inductive message : Type :=
| Moved (name target_folder : string)
| Could_not_move (name target_folder : string) (e : exn)
| File_already_exists (name target_folder : string)
| Skipping_category (name : string)
| Moved_folder (name classification : string)
| Folder_already_exists (name classification : string)
| Already_correct (name classification : string)
| Organized
| Error_occurred (e : exn).

Definition level_of (m : message) : level :=
  match m with
  | Moved _ _ | Skipping_category _ | Moved_folder _ _
  | Already_correct _ _ | Organized => INFO
  | File_already_exists _ _ | Folder_already_exists _ _ => WARNING
  | Could_not_move _ _ _ | Error_occurred _ => ERROR
  end.

Definition is_move (m : message) : bool :=
  match m with
  | Moved _ _ | Moved_folder _ _ => true
  | _ => false
  end.

(** ** The working directory and the run

    [downloads] lists the direct children of [downloads_path]; the run reads
    and renames only these and the children of the category folders.
    [iterdir] yields a listing in its stored order, [mkdir] appends and a
    rename removes its source and appends it to the target folder. *)

Record world : Type := World {
  downloads : listing;
  log : list message
}.

Definition logging (m : message) (w : world) : world :=
  World (downloads w) (log w ++ [m]).

(** [get_files_and_folders] *)
Definition get_files_and_folders (downloads : listing)
  : list string * list string :=
  (Dict.keys (filter (fun f => is_file f.2 = true) downloads),
   Dict.keys (filter (fun d => is_dir d.2 = true) downloads)).

(** [(downloads_path / folder).mkdir(exist_ok=True)]: [FileExistsError] when
    the path exists and is not a directory. *)
Definition mkdir_exist_ok (folder : string) (downloads : listing)
  : result listing :=
  match Dict.get folder downloads with
  | Some (Dir _) => Ok downloads
  | Some File => Raise (FileExistsError folder)
  | None => Ok (downloads ++ [(folder, Dir [])])
  end.

(** A loop of [mkdir] calls: the folders made before an exception stay. *)
Fixpoint mkdir_each (folders : list string) (downloads : listing)
  : listing * option exn :=
  match folders with
  | [] => (downloads, None)
  | folder :: rest =>
      match mkdir_exist_ok folder downloads with
      | Ok downloads' => mkdir_each rest downloads'
      | Raise e => (downloads, Some e)
      end
  end.

Definition create_folders (downloads : listing) (folder_names : rule_table)
    (filename_sorting_rules : filename_rules) : listing * option exn :=
  match mkdir_each (Dict.keys folder_names) downloads with
  | (downloads', None) =>
      mkdir_each (Dict.keys filename_sorting_rules) downloads'
  | raised => raised
  end.

(** [(downloads_path / folder / name).exists()] *)
Definition exists_in (folder name : string) (downloads : listing) : bool :=
  match Dict.get folder downloads with
  | Some (Dir children) => bool_decide (name ∈ Dict.keys children)
  | _ => false
  end.

(** [folder_path.iterdir()] for a direct child of [downloads_path]. *)
Definition iterdir (folder : string) (downloads : listing) : result listing :=
  match Dict.get folder downloads with
  | Some (Dir children) => Ok children
  | Some File => Raise (OSError folder)
  | None => Raise (FileNotFoundError folder)
  end.

Section Engine.

(** [downloads_path.name], which [folder.parent.name] reads. *)
Variable downloads_name : string.

(** The entries whose rename the operating system refuses (permissions, a
    file in use, ...). *)
Variable denied : string -> bool.

(** [(downloads_path / name).rename(downloads_path / folder / name)].  The
    callers test [exists()] first, so the rename never meets an existing
    target; it is modelled as refusing one. *)
Definition rename_into (name folder : string) (downloads : listing)
  : result listing :=
  match Dict.get name downloads with
  | None => Raise (FileNotFoundError name)
  | Some entry =>
      if denied name then Raise (PermissionError name)
      else if decide (name = folder) then Raise (OSError name)
      else
        match Dict.get folder downloads with
        | Some (Dir children) =>
            if decide (name ∈ Dict.keys children)
            then Raise (FileExistsError name)
            else Ok (Dict.put folder (Dir (children ++ [(name, entry)]))
                       (Dict.remove name downloads))
        | _ => Raise (FileNotFoundError folder)
        end
  end.

(** The body of the loop of [move_files]. *)
Definition move_file (extension_map : gmap string string)
    (filename_sorting_rules : filename_rules) (w : world) (file : string)
  : world :=
  let target_folder :=
    determine_target_folder file filename_sorting_rules extension_map "Others" in
  if negb (exists_in target_folder file (downloads w)) then
    match rename_into file target_folder (downloads w) with
    | Ok downloads' =>
        World downloads' (log w ++ [Moved file target_folder])
    | Raise e => logging (Could_not_move file target_folder e) w
    end
  else logging (File_already_exists file target_folder) w.

Definition move_files (files : list string)
    (extension_map : gmap string string)
    (filename_sorting_rules : filename_rules) (w : world) : world :=
  fold_left (move_file extension_map filename_sorting_rules) files w.

(** The body of the loop of [move_folders_based_on_content]; an exception
    leaves the loop with the world as it is at that point. *)
Definition move_folder (all_categories : list string)
    (extension_map : gmap string string) (w : world) (folder : string)
  : world * option exn :=
  if decide (folder ∈ all_categories) then
    (logging (Skipping_category folder) w, None)
  else
    match iterdir folder (downloads w) with
    | Raise e => (w, Some e)
    | Ok items =>
        match classify_folder_by_content items extension_map all_categories with
        | Raise e => (w, Some e)
        | Ok classification =>
            if decide (downloads_name ≠ classification) then
              match mkdir_exist_ok classification (downloads w) with
              | Raise e => (w, Some e)
              | Ok downloads1 =>
                  if negb (exists_in classification folder downloads1) then
                    match rename_into folder classification downloads1 with
                    | Ok downloads2 =>
                        (World downloads2
                           (log w ++ [Moved_folder folder classification]),
                         None)
                    | Raise e => (World downloads1 (log w), Some e)
                    end
                  else
                    (World downloads1
                       (log w ++ [Folder_already_exists folder classification]),
                     None)
              end
            else (logging (Already_correct folder classification) w, None)
        end
    end.

Fixpoint move_folders_loop (folders : list string)
    (all_categories : list string) (extension_map : gmap string string)
    (w : world) : world * option exn :=
  match folders with
  | [] => (w, None)
  | folder :: rest =>
      match move_folder all_categories extension_map w folder with
      | (w', None) => move_folders_loop rest all_categories extension_map w'
      | raised => raised
      end
  end.

Definition move_folders_based_on_content (folders : list string)
    (folder_names : rule_table) (filename_sorting_rules : filename_rules)
    (extension_map : gmap string string) (w : world) : world * option exn :=
  let all_categories := combine_categories folder_names filename_sorting_rules in
  move_folders_loop folders all_categories extension_map w.

(** The [__main__] block on a working directory, with the rule tables as
    parameters. *)
Definition main (folder_names : rule_table)
    (filename_sorting_rules : filename_rules) (downloads : listing) : world :=
  let '(files, folders) := get_files_and_folders downloads in
  match create_folders downloads folder_names filename_sorting_rules with
  | (downloads', Some e) => World downloads' [Error_occurred e]
  | (downloads', None) =>
      let extension_map := map_extensions_to_folder folder_names in
      let w :=
        move_files files extension_map filename_sorting_rules
          (World downloads' []) in
      match move_folders_based_on_content folders folder_names
              filename_sorting_rules extension_map w with
      | (w', None) => logging Organized w'
      | (w', Some e) => logging (Error_occurred e) w'
      end
  end.

End Engine.

(** ** The rule tables of the program *)

Definition folder_names : rule_table :=
  [ ("Audio", ["aif";"cda";"mid";"midi";"mp3";"mpa";"ogg";"wav";"wma";"m4a"]);
    ("Compressed", ["7z";"deb";"pkg";"rar";"rpm";"tar.gz";"z";"zip";"gz"]);
    ("Code", ["htm";"js";"jsp";"html";"ipynb";"py";"java";"css";"php";"json"]);
    ("Documents", ["ods";"odt";"rtf";"ppt";"pptx";"pdf";"xls";"xlsx";"doc";
                   "docx";"txt";"tex";"epub"]);
    ("Images", ["bmp";"gif";"ico";"jpeg";"jpg";"png";"jfif";"svg";"tif";"tiff";
                "webp";"heic"]);
    ("Softwares", ["apk";"bat";"bin";"exe";"jar";"msi";"iso"]);
    ("Videos", ["3gp";"avi";"flv";"h264";"mkv";"mov";"mp4";"mpg";"mpeg";"wmv";
                "m4v"]);
    ("Torrents", ["torrent"]);
    ("WPbackup", ["wpress";"sql"]);
    ("Data", ["csv";"xml"]);
    ("Maps", ["gpx"]);
    ("Graphics", ["psd";"stl";"dwg"]);
    ("Others", ["NONE"]) ].

Definition filename_sorting_rules : filename_rules :=
  [ ("Photos", ["IMG_"]) ].

(** ** The words of the specification, for comparison with the code

    The number of direct child files of a folder, and the number of them whose
    extension the index maps to a given category. *)

Definition spec_total_files (items : listing) : nat :=
  length (filter (fun item => is_file item.2 = true) items).

Definition spec_category_count (extension_map : gmap string string)
    (category : string) (items : listing) : nat :=
  length (filter (fun item => is_file item.2 = true ∧
                    extension_map !! file_extension item.1 = Some category)
            items).

(** The entry of [file_counts] that a direct child file increments, and the
    number of direct child files that increment a given entry. *)
Definition bucket (extension_map : gmap string string) (item : string * node)
  : string :=
  default "Others" (truthy (extension_map !! file_extension item.1)).

Definition bucket_count (extension_map : gmap string string)
    (category : string) (items : listing) : nat :=
  length (filter (fun item => is_file item.2 = true ∧
                    bucket extension_map item = category) items).

(** What a direct child adds to the entry [c] of [file_counts]. *)
Definition counted (extension_map : gmap string string) (item : string * node)
    (c : string) : nat :=
  if decide (is_file item.2 = true ∧ bucket extension_map item = c)
  then 1 else 0.

(** ** Predicates on the working directory *)

(** [name] is a folder that is a direct child of the working directory. *)
Definition is_folder_in (name : string) (d : listing) : Prop :=
  ∃ children, Dict.get name d = Some (Dir children).

(** The working directory once the category folders exist: entries have
    distinct names and every category has its folder. *)
Definition well_formed (all_categories : list string) (d : listing) : Prop :=
  NoDup (Dict.keys d) ∧ ∀ c, c ∈ all_categories → is_folder_in c d.

(** [d'] has every entry of [d], unchanged. *)
Definition extends (d d' : listing) : Prop :=
  ∀ n v, Dict.get n d = Some v → Dict.get n d' = Some v.

(** A file that [move_file] leaves in place: its target exists or its rename
    is refused. *)
Definition stuck_file (denied : string → bool) (rules : filename_rules)
    (em : gmap string string) (d : listing) (file : string) : Prop :=
  exists_in (determine_target_folder file rules em "Others") file d = true
  ∨ denied file = true.

(** A folder that [move_folder] leaves in place without raising: a category
    folder, a folder already under its category, or one whose target exists. *)
Definition stuck_folder (downloads_name : string) (all_categories : list string)
    (em : gmap string string) (d : listing) (folder : string) : Prop :=
  folder ∈ all_categories
  ∨ ∃ items c,
      Dict.get folder d = Some (Dir items)
      ∧ classify_folder_by_content items em all_categories = Ok c
      ∧ (downloads_name = c ∨ exists_in c folder d = true).

(** The folder loop over [folders] moves nothing in [d], whatever the log. *)
Definition quiet_folders (downloads_name : string) (denied : string → bool)
    (all_categories : list string) (em : gmap string string)
    (folders : list string) (d : listing) : Prop :=
  ∀ lg, ∃ ms r,
    move_folders_loop downloads_name denied folders all_categories em
      (World d lg) = (World d (lg ++ ms), r)
    ∧ Forall (fun m => is_move m = false) ms.

(** ** move_folders: folders that are not categories go into Others

    [move_folders] is not called by the run (its call is commented out).  It
    logs nothing when it moves a folder; its warning is the
    [Folder_already_exists] line with the target ["Others"].  A failing
    rename is not caught. *)

Definition move_folders_step (denied : string → bool)
    (folder_names : rule_table) (w : world) (folder : string)
  : world * option exn :=
  if decide ((folder ∉ Dict.keys folder_names) ∧ folder ≠ "Others") then
    if negb (exists_in "Others" folder (downloads w)) then
      match rename_into denied folder "Others" (downloads w) with
      | Ok downloads' => (World downloads' (log w), None)
      | Raise e => (w, Some e)
      end
    else (logging (Folder_already_exists folder "Others") w, None)
  else (w, None).

Fixpoint move_folders (denied : string → bool) (folders : list string)
    (folder_names : rule_table) (w : world) : world * option exn :=
  match folders with
  | [] => (w, None)
  | folder :: rest =>
      match move_folders_step denied folder_names w folder with
      | (w', None) => move_folders denied rest folder_names w'
      | raised => raised
      end
  end.

(** From [d] to [d'] nothing was lost or overwritten: an entry that is not a
    target folder is where it was or, unchanged, in a target folder; a target
    folder is where it was with the entries it had, in their order, possibly
    followed by new ones; a file named like a target folder is where it
    was. *)
Definition kept (targets : list string) (d d' : listing) : Prop :=
  (∀ x entry, x ∉ targets → Dict.get x d = Some entry →
     Dict.get x d' = Some entry
     ∨ ∃ c children, c ∈ targets ∧ Dict.get c d' = Some (Dir children)
                     ∧ (x, entry) ∈ children)
  ∧ (∀ c children, c ∈ targets → Dict.get c d = Some (Dir children) →
       ∃ more, Dict.get c d' = Some (Dir (children ++ more)))
  ∧ (∀ c, c ∈ targets → Dict.get c d = Some File → Dict.get c d' = Some File).
(** * Properties *)

(** ** The program on examples *)

Example stem_img : Path.stem "IMG_0001.jpg" = "IMG_0001".
Proof. reflexivity. Qed.

Example ext_targz : file_extension "archive.tar.GZ" = "gz".
Proof. reflexivity. Qed.

Example ext_hidden : file_extension ".bashrc" = "".
Proof. reflexivity. Qed.

Example classify_img :
  determine_target_folder "IMG_0001.jpg" filename_sorting_rules
    (map_extensions_to_folder folder_names) "Others" = "Photos".
Proof. vm_compute. reflexivity. Qed.

Example classify_pdf :
  determine_target_folder "report.PDF" filename_sorting_rules
    (map_extensions_to_folder folder_names) "Others" = "Documents".
Proof. vm_compute. reflexivity. Qed.

Example classify_folder_audio :
  classify_folder_by_content
    [("a.mp3", File); ("b.mp3", File); ("c.mp3", File); ("d.mp3", File);
     ("e.mp3", File); ("notes.txt", File)]
    (map_extensions_to_folder folder_names)
    (combine_categories folder_names filename_sorting_rules) = Ok "Audio".
Proof. vm_compute. reflexivity. Qed.

Example end_to_end :
  let w := main "Downloads" (fun _ => false) folder_names filename_sorting_rules
             [("IMG_0001.jpg", File); ("report.pdf", File);
              ("album", Dir [("a.mp3", File); ("b.mp3", File); ("c.txt", File)])]
  in exists_in "Photos" "IMG_0001.jpg" (downloads w) = true
     ∧ exists_in "Documents" "report.pdf" (downloads w) = true
     ∧ exists_in "Audio" "album" (downloads w) = true
     ∧ log w = [Moved "IMG_0001.jpg" "Photos"; Moved "report.pdf" "Documents";
                Moved_folder "album" "Audio"; Organized].
Proof. vm_compute. done. Qed.


(** ** Strings and path components *)

Lemma startswith_spec (s p : string) :
  Str.startswith s p = true ↔ ∃ t, s = String.append p t.
Proof.
  revert s. induction p as [|b p IH]; intros s; simpl.
  - split; [intros _; by exists s | done].
  - destruct s as [|a s].
    + split; [done | intros [t Ht]; discriminate].
    + destruct (Ascii.eqb_spec a b) as [->|Hne].
      * rewrite IH. split; intros [t Ht]; exists t.
        -- by rewrite Ht.
        -- change (String b s = String b (String.append p t)) in Ht. congruence.
      * split; [done | intros [t Ht]].
        change (String a s = String b (String.append p t)) in Ht. congruence.
Qed.

Lemma startswith_slice (s p : string) :
  Str.startswith s p = true ↔ Str.slice_to (String.length p) s = p.
Proof.
  revert s. induction p as [|b p IH]; intros s; simpl.
  - by destruct s.
  - destruct s as [|a s]; [done|].
    destruct (Ascii.eqb_spec a b) as [->|Hne].
    + rewrite IH. split; intros H; congruence.
    + split; [done | intros H; congruence].
Qed.

Lemma rfind_None (c : ascii) (s : string) :
  Str.rfind c s = None → Str.contains c s = false.
Proof.
  induction s as [|a t IH]; simpl; [done|].
  destruct (Str.rfind c t); [done|].
  destruct (Ascii.eqb a c); [done|]. intros _. by apply IH.
Qed.

Lemma rfind_Some (c : ascii) (s : string) (i : nat) :
  Str.rfind c s = Some i → Str.contains c (Str.slice_from (S i) s) = false.
Proof.
  revert i. induction s as [|a t IH]; intros i; simpl; [done|].
  destruct (Str.rfind c t) as [j|] eqn:Ht.
  - intros [= <-]. by apply IH.
  - destruct (Ascii.eqb a c); [|done].
    intros [= <-]. destruct t; simpl; [done|]. by apply rfind_None in Ht.
Qed.

Lemma slice_from_S (i : nat) (s : string) :
  Str.slice_from 1 (Str.slice_from i s) = Str.slice_from (S i) s.
Proof.
  revert s. induction i as [|j IH]; intros s; [done|].
  destruct s as [|a t]; [done|]. simpl Str.slice_from at 2. rewrite IH.
  by destruct t.
Qed.

Lemma lower_char_dot (a : ascii) :
  Ascii.eqb (Str.lower_char a) "." = Ascii.eqb a ".".
Proof. destruct a as [[] [] [] [] [] [] [] []]; reflexivity. Qed.

Lemma contains_dot_lower (s : string) :
  Str.contains "." (Str.lower s) = Str.contains "." s.
Proof.
  induction s as [|a t IH]; simpl; [done|]. by rewrite lower_char_dot, IH.
Qed.

(** The key under which a file is looked up in the extension index never
    contains a dot: it is what follows the last dot of the name. *)
Lemma file_extension_no_dot (file_name : string) :
  Str.contains "." (file_extension file_name) = false.
Proof.
  unfold file_extension, Path.suffix. rewrite contains_dot_lower.
  destruct (Str.rfind "." file_name) as [i|] eqn:Hi; [|done].
  destruct (Path.has_suffix file_name i); [|done].
  rewrite slice_from_S. by apply rfind_Some.
Qed.

Lemma file_extension_neq (file_name key : string) :
  Str.contains "." key = true → file_extension file_name ≠ key.
Proof.
  intros Hkey Heq. pose proof (file_extension_no_dot file_name) as H.
  rewrite Heq in H. congruence.
Qed.

(** ** The file classifier *)

Lemma any_startswith_true (file_stem : string) (patterns : list string) :
  any_startswith file_stem patterns = true ↔
  ∃ p, p ∈ patterns ∧ ∃ t, file_stem = String.append p t.
Proof.
  unfold any_startswith. rewrite existsb_exists. split.
  - intros (p & Hin & Hp). exists p. split; [by apply list_elem_of_In|].
    by apply startswith_spec.
  - intros (p & Hin & Hp). exists p. split; [by apply list_elem_of_In|].
    by apply startswith_spec.
Qed.

Lemma match_filename_rules_first (file_stem : string)
    (before after : filename_rules) (folder : string) (patterns : list string) :
  (∀ r, r ∈ before → any_startswith file_stem r.2 = false) →
  any_startswith file_stem patterns = true →
  match_filename_rules file_stem (before ++ (folder, patterns) :: after)
  = Some folder.
Proof.
  induction before as [|[f ps] before IH]; simpl; intros Hbefore Hhere.
  - by rewrite Hhere.
  - assert (Hf := Hbefore (f, ps) ltac:(by left)). simpl in Hf. rewrite Hf.
    apply IH; [|done]. intros r Hr. apply Hbefore. by right.
Qed.

Lemma match_filename_rules_none (file_stem : string) (rules : filename_rules) :
  (∀ r, r ∈ rules → any_startswith file_stem r.2 = false) →
  match_filename_rules file_stem rules = None.
Proof.
  induction rules as [|[f ps] rules IH]; simpl; intros Hnone; [done|].
  assert (Hf := Hnone (f, ps) ltac:(by left)). simpl in Hf. rewrite Hf.
  apply IH. intros r Hr. apply Hnone. by right.
Qed.

Lemma any_startswith_false (file_stem : string) (patterns : list string) :
  (∀ p t, p ∈ patterns → file_stem ≠ String.append p t) →
  any_startswith file_stem patterns = false.
Proof.
  intros H. destruct (any_startswith file_stem patterns) eqn:E; [|done].
  apply any_startswith_true in E as (p & Hin & t & Ht). by destruct (H p t).
Qed.

(** C1. [determine_target_folder] returns the category of the first filename
    rule, in the order of the rule table, one of whose prefixes starts the
    file's stem (whatever the extension of the file is); when no rule has such
    a prefix it returns the entry of the extension index for the lowercased
    suffix without its dot, and the default category when there is none. *)
Theorem C1_determine_target_folder (file_name : string)
    (rules : filename_rules) (extension_map : gmap string string)
    (default_folder : string) :
  (∀ before folder patterns after,
     rules = before ++ (folder, patterns) :: after →
     (∀ r p t, r ∈ before → p ∈ r.2 →
        Path.stem file_name ≠ String.append p t) →
     (∃ p t, p ∈ patterns ∧ Path.stem file_name = String.append p t) →
     determine_target_folder file_name rules extension_map default_folder
     = folder)
  ∧
  ((∀ r p t, r ∈ rules → p ∈ r.2 → Path.stem file_name ≠ String.append p t) →
   determine_target_folder file_name rules extension_map default_folder
   = match extension_map !! Str.lower (Str.slice_from 1 (Path.suffix file_name)) with
     | Some folder => folder
     | None => default_folder
     end).
Proof.
  split.
  - intros before folder patterns after -> Hbefore (p & t & Hp & Ht).
    unfold determine_target_folder.
    rewrite match_filename_rules_first; [done| |].
    + intros r Hr. apply any_startswith_false. intros q u Hq. by eapply Hbefore.
    + apply any_startswith_true. exists p. split; [done|]. by exists t.
  - intros Hnone. unfold determine_target_folder.
    rewrite match_filename_rules_none; [done|].
    intros r Hr. apply any_startswith_false. intros q u Hq. by eapply Hnone.
Qed.

(** C1 at a file whose stem matches the second rule, and at one that matches
    none. *)
Lemma C1_witness :
  determine_target_folder "IMG_0001.pdf"
    [("Scans", ["scan_"; "SCAN_"]); ("Photos", ["DSC"; "IMG_"]); ("Shots", ["IMG"])]
    (map_extensions_to_folder folder_names) "Others" = "Photos"
  ∧ determine_target_folder "holiday.JPG"
      [("Scans", ["scan_"; "SCAN_"]); ("Photos", ["DSC"; "IMG_"])]
      (map_extensions_to_folder folder_names) "Others" = "Images".
Proof.
  split.
  - apply (proj1 (C1_determine_target_folder "IMG_0001.pdf"
             [("Scans", ["scan_"; "SCAN_"]); ("Photos", ["DSC"; "IMG_"]);
              ("Shots", ["IMG"])]
             (map_extensions_to_folder folder_names) "Others")
             [("Scans", ["scan_"; "SCAN_"])] "Photos" ["DSC"; "IMG_"]
             [("Shots", ["IMG"])]).
    + reflexivity.
    + intros r p t Hr Hp Heq.
      assert (Hs : Str.startswith (Path.stem "IMG_0001.pdf") p = true)
        by (apply startswith_spec; by exists t).
      apply list_elem_of_singleton in Hr. subst r. simpl in Hp.
      repeat (apply elem_of_cons in Hp as [->|Hp]; [by vm_compute in Hs|]).
      by apply elem_of_nil in Hp.
    + exists "IMG_", "0001". split; [|reflexivity].
      apply elem_of_cons. right. apply elem_of_cons. by left.
  - apply (proj2 (C1_determine_target_folder "holiday.JPG"
             [("Scans", ["scan_"; "SCAN_"]); ("Photos", ["DSC"; "IMG_"])]
             (map_extensions_to_folder folder_names) "Others")).
    intros r p t Hr Hp Heq.
    assert (Hs : Str.startswith (Path.stem "holiday.JPG") p = true)
      by (apply startswith_spec; by exists t).
    repeat (apply elem_of_cons in Hr as [->|Hr];
      [simpl in Hp;
       repeat (apply elem_of_cons in Hp as [->|Hp]; [by vm_compute in Hs|]);
       by apply elem_of_nil in Hp|]).
    by apply elem_of_nil in Hr.
Defined.

(** C10. The prefixes of the filename rules are compared character for
    character, so letter case matters: the stem [img_0001] does not start with
    the registered prefix [IMG_] although it does once lowercased, and the
    file is classified by its extension; the extension lookup itself ignores
    case. *)
Theorem C10_prefix_match_is_case_sensitive :
  (∀ s p, Str.startswith s p = true ↔ Str.slice_to (String.length p) s = p)
  ∧ Str.startswith (Path.stem "img_0001.jpg") "IMG_" = false
  ∧ Str.startswith (Str.lower (Path.stem "img_0001.jpg")) (Str.lower "IMG_") = true
  ∧ determine_target_folder "IMG_0001.jpg" filename_sorting_rules
      (map_extensions_to_folder folder_names) "Others" = "Photos"
  ∧ determine_target_folder "img_0001.jpg" filename_sorting_rules
      (map_extensions_to_folder folder_names) "Others" = "Images"
  ∧ determine_target_folder "img_0001.JPG" filename_sorting_rules
      (map_extensions_to_folder folder_names) "Others" = "Images".
Proof.
  split; [exact startswith_slice|].
  repeat split; vm_compute; reflexivity.
Qed.

(** ** Dictionaries *)

Section dict.
Context {V : Type}.
Implicit Types (d : list (string * V)) (k : string) (v : V).

Lemma get_put_eq k v d : Dict.get k (Dict.put k v d) = Some v.
Proof.
  induction d as [|[k' v'] d IH]; simpl.
  - by rewrite decide_True.
  - destruct (decide (k = k')) as [->|Hne]; simpl.
    + by rewrite decide_True.
    + by rewrite decide_False.
Qed.

Lemma get_put_ne k k' v d :
  k ≠ k' → Dict.get k' (Dict.put k v d) = Dict.get k' d.
Proof.
  intros Hne. induction d as [|[k0 v0] d IH]; simpl.
  - by rewrite decide_False.
  - destruct (decide (k = k0)) as [->|Hne0]; simpl.
    + by rewrite !decide_False.
    + destruct (decide (k' = k0)); [done|]. apply IH.
Qed.

Lemma get_None k d : Dict.get k d = None ↔ k ∉ Dict.keys d.
Proof.
  induction d as [|[k' v'] d IH]; simpl.
  - split; [intros _; apply not_elem_of_nil | done].
  - rewrite not_elem_of_cons. destruct (decide (k = k')) as [->|Hne].
    + split; [done | intros [? _]; done].
    + rewrite IH. tauto.
Qed.

Lemma get_is_Some k d : is_Some (Dict.get k d) ↔ k ∈ Dict.keys d.
Proof.
  rewrite <- not_eq_None_Some, get_None.
  destruct (decide (k ∈ Dict.keys d)); tauto.
Qed.

Lemma get_Some_elem k v d : Dict.get k d = Some v → (k, v) ∈ d.
Proof.
  induction d as [|[k' v'] d IH]; simpl; [done|].
  destruct (decide (k = k')) as [->|Hne].
  - intros [= ->]. by left.
  - intros H. right. by apply IH.
Qed.

Lemma elem_get_Some k v d :
  NoDup (Dict.keys d) → (k, v) ∈ d → Dict.get k d = Some v.
Proof.
  induction d as [|[k' v'] d IH]; simpl; intros Hnd Hin.
  - by apply elem_of_nil in Hin.
  - apply NoDup_cons in Hnd as [Hk' Hnd].
    apply elem_of_cons in Hin as [[= -> ->]|Hin].
    + by rewrite decide_True.
    + destruct (decide (k = k')) as [->|Hne]; [|by apply IH].
      destruct Hk'. change k' with (k', v).1.
      by apply (list_elem_of_fmap_2 fst).
Qed.

Lemma keys_put k v d :
  Dict.keys (Dict.put k v d)
  = if decide (k ∈ Dict.keys d) then Dict.keys d else Dict.keys d ++ [k].
Proof.
  unfold Dict.keys. induction d as [|[k' v'] d IH].
  - destruct (decide (k ∈ fst <$> ([] : list (string * V)))) as [H|H]; [|done].
    by apply elem_of_nil in H.
  - cbn [Dict.put]. destruct (decide (k = k')) as [->|Hne].
    + destruct (decide (k' ∈ fst <$> ((k', v') :: d))) as [H|H]; [done|].
      destruct H. by left.
    + rewrite !fmap_cons, IH. cbn [fst].
      destruct (decide (k ∈ fst <$> d)) as [H|H].
      * rewrite decide_True; [done | by right].
      * rewrite decide_False; [done|]. rewrite not_elem_of_cons. done.
Qed.

Lemma NoDup_keys_put k v d :
  NoDup (Dict.keys d) → NoDup (Dict.keys (Dict.put k v d)).
Proof.
  intros Hnd. rewrite keys_put. destruct (decide (k ∈ Dict.keys d)); [done|].
  apply NoDup_app. split; [done|]. split; [|apply NoDup_singleton].
  intros x Hx ->%list_elem_of_singleton. done.
Qed.

Lemma get_remove_eq k d : Dict.get k (Dict.remove k d) = None.
Proof.
  apply get_None. unfold Dict.remove, Dict.keys.
  intros ([k' v] & -> & Hin)%(list_elem_of_fmap_1 fst).
  apply list_elem_of_filter in Hin as [Hne _]. done.
Qed.

Lemma get_remove_ne k k' d :
  k ≠ k' → Dict.get k' (Dict.remove k d) = Dict.get k' d.
Proof.
  intros Hne. unfold Dict.remove.
  induction d as [|[k0 v0] d IH]; [done|].
  rewrite filter_cons. simpl. destruct (decide (k0 ≠ k)) as [H0|H0]; simpl.
  - by rewrite IH.
  - apply dec_stable in H0 as ->. by rewrite decide_False.
Qed.

Lemma get_app k d d' :
  Dict.get k (d ++ d')
  = match Dict.get k d with Some v => Some v | None => Dict.get k d' end.
Proof.
  induction d as [|[k' v'] d IH]; simpl; [done|].
  by destruct (decide (k = k')).
Qed.

End dict.

(** ** The folder classifier *)

Section classify.
Variable extension_map : gmap string string.
Implicit Types (items : listing) (file_counts : list (string * nat)).

Local Abbreviation counted := (counted extension_map).

Lemma count_item_Ok file_counts total_files item :
  is_Some (Dict.get "Others" file_counts) →
  ∃ file_counts',
    count_item extension_map (file_counts, total_files) item
    = Ok (file_counts', total_files + (if is_file item.2 then 1 else 0))
    ∧ is_Some (Dict.get "Others" file_counts')
    ∧ (∀ c, default 0 (Dict.get c file_counts')
            = default 0 (Dict.get c file_counts) + counted item c)
    ∧ (NoDup (Dict.keys file_counts) → NoDup (Dict.keys file_counts')).
Proof.
  intros [n Hn]. unfold count_item, counted, bucket.
  destruct (is_file item.2) eqn:Hfile.
  - destruct (truthy (extension_map !! file_extension item.1)) as [c0|] eqn:Hc.
    + eexists. split; [done|]. split; [|split].
      * destruct (decide (c0 = "Others")) as [->|Hne].
        -- rewrite get_put_eq. by eexists.
        -- rewrite get_put_ne by done. by exists n.
      * intros c. simpl. destruct (decide (c0 = c)) as [->|Hne].
        -- rewrite get_put_eq, decide_True by done. done.
        -- rewrite get_put_ne by done. rewrite decide_False by tauto. simpl. lia.
      * apply NoDup_keys_put.
    + eexists. rewrite Hn. split; [done|]. split; [|split].
      * rewrite get_put_eq. by eexists.
      * intros c. simpl. destruct (decide ("Others" = c)) as [<-|Hne].
        -- rewrite get_put_eq, Hn, decide_True by done. done.
        -- rewrite get_put_ne by done. rewrite decide_False by tauto. simpl. lia.
      * apply NoDup_keys_put.
  - exists file_counts. rewrite Nat.add_0_r. split; [done|].
    split; [by exists n|]. split; [|done].
    intros c. rewrite decide_False; [lia|]. intros [? _]. done.
Qed.

Lemma bucket_count_cons c item items :
  bucket_count extension_map c (item :: items)
  = counted item c + bucket_count extension_map c items.
Proof.
  unfold bucket_count, counted. rewrite filter_cons.
  by destruct (decide _).
Qed.

Lemma spec_total_files_cons item items :
  spec_total_files (item :: items)
  = (if is_file item.2 then 1 else 0) + spec_total_files items.
Proof.
  unfold spec_total_files. rewrite filter_cons.
  destruct (is_file item.2); [by rewrite decide_True | by rewrite decide_False].
Qed.

Lemma count_items_Ok items file_counts total_files :
  is_Some (Dict.get "Others" file_counts) →
  ∃ file_counts',
    count_items extension_map items (file_counts, total_files)
    = Ok (file_counts', total_files + spec_total_files items)
    ∧ is_Some (Dict.get "Others" file_counts')
    ∧ (∀ c, default 0 (Dict.get c file_counts')
            = default 0 (Dict.get c file_counts)
              + bucket_count extension_map c items)
    ∧ (NoDup (Dict.keys file_counts) → NoDup (Dict.keys file_counts')).
Proof.
  revert file_counts total_files.
  induction items as [|item items IH]; intros fc n HO.
  - exists fc. simpl. rewrite Nat.add_0_r. split; [done|]. split; [done|].
    split; [|done]. intros c. unfold bucket_count. simpl. lia.
  - destruct (count_item_Ok fc n item HO) as (fc1 & E1 & HO1 & Hc1 & Hnd1).
    destruct (IH fc1 (n + (if is_file item.2 then 1 else 0)) HO1)
      as (fc2 & E2 & HO2 & Hc2 & Hnd2).
    exists fc2. cbn [count_items]. rewrite E1, E2.
    rewrite spec_total_files_cons. split; [f_equal; f_equal; lia|].
    split; [done|]. split; [|auto].
    intros c. rewrite Hc2, Hc1, bucket_count_cons. lia.
Qed.

(** Two different entries are never incremented by the same file. *)
Lemma bucket_count_disjoint c1 c2 items :
  c1 ≠ c2 →
  (bucket_count extension_map c1 items + bucket_count extension_map c2 items
   ≤ spec_total_files items)%nat.
Proof.
  intros Hne. induction items as [|item items IH].
  - unfold bucket_count, spec_total_files. simpl. lia.
  - rewrite !bucket_count_cons, spec_total_files_cons. unfold counted.
    destruct (decide (_ ∧ _ = c1)) as [[Hf H1]|H1];
      destruct (decide (_ ∧ _ = c2)) as [[Hf' H2]|H2];
      try congruence; destruct (is_file item.2); try done; lia.
Qed.

Lemma bucket_count_le c items :
  (bucket_count extension_map c items ≤ spec_total_files items)%nat.
Proof.
  induction items as [|item items IH].
  - unfold bucket_count, spec_total_files. simpl. lia.
  - rewrite bucket_count_cons, spec_total_files_cons. unfold counted.
    destruct (decide (_ ∧ _ = c)) as [[Hf H1]|H1];
      destruct (is_file item.2); try done; lia.
Qed.

(** A file the index maps to a category with a non-empty name increments
    that category's entry. *)
Lemma spec_count_le_bucket_count c items :
  c ≠ "" →
  (spec_category_count extension_map c items
   ≤ bucket_count extension_map c items)%nat.
Proof.
  intros Hc. induction items as [|item items IH].
  - unfold bucket_count, spec_category_count. simpl. lia.
  - rewrite bucket_count_cons. unfold spec_category_count in *.
    rewrite filter_cons. unfold counted, bucket.
    destruct (decide (is_file item.2 = true ∧
                      extension_map !! file_extension item.1 = Some c))
      as [[Hf Hm]|Hm]; [|lia].
    rewrite decide_True; [simpl; lia|]. split; [done|].
    rewrite Hm. simpl. by rewrite decide_False.
Qed.

(** A category other than ["Others"] is incremented only by the files the
    index maps to it. *)
Lemma bucket_count_le_spec_count c items :
  c ≠ "Others" →
  (bucket_count extension_map c items
   ≤ spec_category_count extension_map c items)%nat.
Proof.
  intros Hc. induction items as [|item items IH].
  - unfold bucket_count, spec_category_count. simpl. lia.
  - rewrite bucket_count_cons. unfold spec_category_count in *.
    rewrite filter_cons. unfold counted, bucket.
    destruct (decide (is_file item.2 = true ∧
                      default "Others"
                        (truthy (extension_map !! file_extension item.1)) = c))
      as [[Hf Hb]|Hb]; [|destruct (decide _); simpl; lia].
    rewrite decide_True; [simpl; lia|]. split; [done|].
    destruct (extension_map !! file_extension item.1) as [c0|]; simpl in Hb;
      [|done].
    destruct (decide (c0 = "")); simpl in Hb; congruence.
Qed.

(** No file increments an entry with the empty name. *)
Lemma bucket_count_empty items : bucket_count extension_map "" items = 0.
Proof.
  induction items as [|item items IH]; [done|].
  rewrite bucket_count_cons, IH. unfold counted, bucket.
  rewrite decide_False; [done|]. intros [_ Hb].
  destruct (extension_map !! file_extension item.1) as [c0|]; simpl in Hb;
    [|done].
  destruct (decide (c0 = "")); simpl in Hb; congruence.
Qed.

Lemma spec_category_count_le c items :
  (spec_category_count extension_map c items ≤ spec_total_files items)%nat.
Proof.
  unfold spec_category_count, spec_total_files.
  induction items as [|i l IH]; [done|]. rewrite !filter_cons.
  destruct (decide (_ ∧ _)) as [[Hf _]|_].
  - rewrite decide_True by done. simpl. lia.
  - destruct (decide _); simpl; lia.
Qed.

End classify.

Lemma init_counts_spec (all_categories : list string) :
  (∀ c, default 0 (Dict.get c (init_counts all_categories)) = 0)
  ∧ NoDup (Dict.keys (init_counts all_categories))
  ∧ (∀ c, c ∈ Dict.keys (init_counts all_categories) ↔ c ∈ all_categories).
Proof.
  unfold init_counts.
  assert (G : ∀ l (d : list (string * nat)),
    (∀ c, default 0 (Dict.get c d) = 0) → NoDup (Dict.keys d) →
    let d' := fold_left (fun d category => Dict.put category 0 d) l d in
    (∀ c, default 0 (Dict.get c d') = 0) ∧ NoDup (Dict.keys d')
    ∧ (∀ c, c ∈ Dict.keys d' ↔ c ∈ Dict.keys d ∨ c ∈ l)).
  { induction l as [|x l IH]; intros d Hz Hnd; simpl.
    - split; [done|]. split; [done|]. intros c. rewrite elem_of_nil. tauto.
    - destruct (IH (Dict.put x 0 d)) as (Hz' & Hnd' & Hk').
      + intros c. destruct (decide (x = c)) as [->|Hne].
        * by rewrite get_put_eq.
        * by rewrite get_put_ne.
      + by apply NoDup_keys_put.
      + split; [done|]. split; [done|]. intros c. rewrite Hk', keys_put.
        rewrite elem_of_cons. destruct (decide (x ∈ Dict.keys d)) as [Hx|Hx].
        * split; [tauto|]. intros [?|[->|?]]; tauto.
        * rewrite elem_of_app, list_elem_of_singleton. tauto. }
  destruct (G all_categories []) as (Hz & Hnd & Hk); [done|apply NoDup_nil_2|].
  split; [done|]. split; [done|]. intros c. rewrite Hk, elem_of_nil. tauto.
Qed.

Lemma max_by_count_spec (x : string * nat) (rest : list (string * nat)) :
  ∃ best, max_by_count (x :: rest) = Ok best
          ∧ best ∈ x :: rest
          ∧ ∀ y, y ∈ x :: rest → (y.2 ≤ best.2)%nat.
Proof.
  unfold max_by_count. eexists. split; [done|].
  revert x. induction rest as [|z rest IH]; intros x; simpl.
  - split; [by left|]. by intros y ->%list_elem_of_singleton.
  - destruct (Nat.ltb_spec x.2 z.2) as [Hlt|Hge].
    + destruct (IH z) as [Hin Hmax]. split; [by right|].
      intros y [->|Hy]%elem_of_cons; [|by apply Hmax].
      specialize (Hmax z ltac:(by left)). lia.
    + destruct (IH x) as [Hin Hmax]. split.
      * apply elem_of_cons in Hin as [->|Hin]; [by left | by do 2 right].
      * intros y [->|[->|Hy]%elem_of_cons]%elem_of_cons.
        -- apply Hmax. by left.
        -- specialize (Hmax x ltac:(by left)). lia.
        -- apply Hmax. by right.
Qed.

(** With ["Others"] among the categories the classifier returns, and what it
    returns is the entry with more than half of the files, if there is one. *)
Lemma classify_folder_by_content_Ok (items : listing)
    (extension_map : gmap string string) (all_categories : list string) :
  "Others" ∈ all_categories →
  ∃ c, classify_folder_by_content items extension_map all_categories = Ok c
       ∧ (c = "Others" ∨
          (spec_total_files items < 2 * bucket_count extension_map c items)%nat)
       ∧ (∀ c', (spec_total_files items
                 < 2 * bucket_count extension_map c' items)%nat → c = c').
Proof.
  intros HO. unfold classify_folder_by_content.
  destruct (init_counts_spec all_categories) as (Hz & Hnd & Hk).
  destruct (count_items_Ok extension_map items (init_counts all_categories) 0)
    as (fc & E & HO' & Hc & Hnd'); [by apply get_is_Some, Hk|].
  rewrite E. simpl. specialize (Hnd' Hnd).
  assert (Hget : ∀ c, default 0 (Dict.get c fc) = bucket_count extension_map c items).
  { intros c. by rewrite Hc, Hz. }
  destruct (decide (spec_total_files items = 0)) as [H0|H0].
  { exists "Others". split; [done|]. split; [by left|].
    intros c' Hc'. pose proof (bucket_count_le extension_map c' items). lia. }
  destruct fc as [|x rest]; [by destruct HO'|].
  destruct (max_by_count_spec x rest) as ([k v] & -> & Hin & Hmax).
  assert (Hv : v = bucket_count extension_map k items).
  { rewrite <- Hget, (elem_get_Some k v); done. }
  assert (Hbig : ∀ c', (spec_total_files items
                        < 2 * bucket_count extension_map c' items)%nat →
                       k = c' ∧ exceeds_half v (spec_total_files items) = true).
  { intros c' Hc'.
    assert (Hle : (bucket_count extension_map c' items ≤ v)%nat).
    { destruct (Dict.get c' (x :: rest)) as [n|] eqn:Hn.
      - specialize (Hget c'). rewrite Hn in Hget. simpl in Hget. subst n.
        apply get_Some_elem in Hn. by apply (Hmax (c', _)).
      - specialize (Hget c'). rewrite Hn in Hget. simpl in Hget. lia. }
    split; [|apply Nat.ltb_lt; lia].
    destruct (decide (k = c')) as [|Hne]; [done|].
    pose proof (bucket_count_disjoint extension_map k c' items Hne). lia. }
  destruct (exceeds_half v (spec_total_files items)) eqn:Hex.
  - exists k. split; [done|]. apply Nat.ltb_lt in Hex. split; [right; lia|].
    intros c' Hc'. by destruct (Hbig c' Hc').
  - exists "Others". split; [done|]. split; [by left|].
    intros c' Hc'. by destruct (Hbig c' Hc').
Qed.

(** C2. [classify_folder_by_content] returns the category to which the
    extension index maps more than half of the direct child files of the
    folder, every direct child file counting in the total; it returns
    ["Others"] when the folder has no direct child file and when no category
    has more than half of them, an exact half included. *)
Theorem C2_classify_folder_by_content (items : listing)
    (extension_map : gmap string string) (all_categories : list string)
    (HOthers : "Others" ∈ all_categories) :
  (∀ c, c ≠ "" →
     (spec_total_files items < 2 * spec_category_count extension_map c items)%nat →
     classify_folder_by_content items extension_map all_categories = Ok c)
  ∧ ((∀ c, c ≠ "" →
        (2 * spec_category_count extension_map c items ≤ spec_total_files items)%nat) →
     classify_folder_by_content items extension_map all_categories = Ok "Others")
  ∧ (spec_total_files items = 0 →
     classify_folder_by_content items extension_map all_categories = Ok "Others").
Proof.
  destruct (classify_folder_by_content_Ok items extension_map all_categories
              HOthers) as (r & E & Hr & Huniq).
  assert (Hnone : (∀ c, c ≠ "" →
      (2 * spec_category_count extension_map c items ≤ spec_total_files items)%nat) →
      classify_folder_by_content items extension_map all_categories = Ok "Others").
  { intros Hle. rewrite E. f_equal. destruct Hr as [|Hr]; [done|].
    destruct (decide (r = "Others")) as [|Hne]; [done|].
    pose proof (bucket_count_le_spec_count extension_map r items Hne) as Hb.
    destruct (decide (r = "")) as [->|Hne'].
    - rewrite bucket_count_empty in Hr. lia.
    - specialize (Hle r Hne'). lia. }
  split; [|split; [done|]].
  - intros c Hc Hmaj. rewrite E. f_equal. apply Huniq.
    pose proof (spec_count_le_bucket_count extension_map c items Hc). lia.
  - intros H0. apply Hnone. intros c _.
    pose proof (spec_category_count_le extension_map c items). lia.
Qed.

Lemma spec_category_count_cons (extension_map : gmap string string)
    (c : string) (item : string * node) (items : listing) :
  spec_category_count extension_map c (item :: items)
  = (if decide (is_file item.2 = true ∧
                extension_map !! file_extension item.1 = Some c)
     then 1 else 0)
    + spec_category_count extension_map c items.
Proof.
  unfold spec_category_count. rewrite filter_cons. by destruct (decide _).
Qed.

(** C2 at three files of one category and one of another, at two and two,
    and at a folder without a direct child file. *)
Lemma C2_witness :
  classify_folder_by_content
    [("a.mp3", File); ("b.mp3", File); ("c.MP3", File); ("d.pdf", File)]
    (map_extensions_to_folder folder_names)
    (combine_categories folder_names filename_sorting_rules) = Ok "Audio"
  ∧ classify_folder_by_content
      [("a.mp3", File); ("b.mp3", File); ("c.pdf", File); ("d.pdf", File)]
      (map_extensions_to_folder folder_names)
      (combine_categories folder_names filename_sorting_rules) = Ok "Others"
  ∧ classify_folder_by_content
      [("sub", Dir [("a.mp3", File)])]
      (map_extensions_to_folder folder_names)
      (combine_categories folder_names filename_sorting_rules) = Ok "Others".
Proof.
  assert (HO : "Others" ∈ combine_categories folder_names filename_sorting_rules).
  { apply (bool_decide_unpack _). vm_compute. exact I. }
  split; [|split].
  - apply (proj1 (C2_classify_folder_by_content _ _ _ HO)); [done|].
    vm_compute. lia.
  - apply (proj1 (proj2 (C2_classify_folder_by_content _ _ _ HO))).
    intros c _. rewrite !spec_category_count_cons.
    repeat match goal with
           | |- context [decide ?P] =>
               destruct (decide P) as [[_ ?H]|_];
               [vm_compute in H; injection H as <-|]
           end; try discriminate; vm_compute; lia.
  - apply (proj2 (proj2 (C2_classify_folder_by_content _ _ _ HO))). reflexivity.
Defined.

(** C3, as the specification words it, fails: a direct child file whose
    extension is not in the index increments the entry of the real category
    ["Others"]. *)
Lemma C3_counterexample :
  ¬ (∀ (extension_map : gmap string string) file_counts total_files item
       file_counts' total_files',
       is_file item.2 = true →
       extension_map !! file_extension item.1 = None →
       count_item extension_map (file_counts, total_files) item
       = Ok (file_counts', total_files') →
       ∀ category, Dict.get category file_counts'
                   = Dict.get category file_counts).
Proof.
  intros H.
  specialize (H (map_extensions_to_folder folder_names)
                [("Audio", 0); ("Others", 0)] 0 ("notes.xyz", File)
                [("Audio", 0); ("Others", 1)] 1).
  specialize (H eq_refl).
  assert (E : map_extensions_to_folder folder_names
              !! file_extension ("notes.xyz", File).1 = None)
    by (vm_compute; reflexivity).
  specialize (H E). clear E.
  assert (E : count_item (map_extensions_to_folder folder_names)
                ([("Audio", 0); ("Others", 0)], 0) ("notes.xyz", File)
              = Ok ([("Audio", 0); ("Others", 1)], 1))
    by (vm_compute; reflexivity).
  specialize (H E "Others"). vm_compute in H. discriminate.
Qed.

(** C3, amended. A direct child file whose extension is not in the index is
    counted in the entry ["Others"] of [file_counts], the entry of the real
    category of that name, and in no other entry; it is counted in
    [total_files]. *)
Theorem C3_unmapped_file_counts_as_Others
    (extension_map : gmap string string) (file_counts : list (string * nat))
    (total_files n : nat) (item : string * node)
    (Hfile : is_file item.2 = true)
    (Hunmapped : extension_map !! file_extension item.1 = None)
    (HOthers : Dict.get "Others" file_counts = Some n) :
  ∃ file_counts',
    count_item extension_map (file_counts, total_files) item
    = Ok (file_counts', total_files + 1)
    ∧ Dict.get "Others" file_counts' = Some (n + 1)
    ∧ ∀ category, category ≠ "Others" →
        Dict.get category file_counts' = Dict.get category file_counts.
Proof.
  unfold count_item. rewrite Hfile, Hunmapped. simpl. rewrite HOthers.
  eexists. split; [done|]. split; [apply get_put_eq|].
  intros category Hne. by apply get_put_ne.
Qed.

(** C3 at a file with an extension the program's index does not have. *)
Lemma C3_witness :
  ∃ file_counts',
    count_item (map_extensions_to_folder folder_names)
      ([("Audio", 2); ("Others", 1); ("Photos", 0)], 3) ("notes.xyz", File)
    = Ok (file_counts', 3 + 1)
    ∧ Dict.get "Others" file_counts' = Some (1 + 1)
    ∧ ∀ category, category ≠ "Others" →
        Dict.get category file_counts'
        = Dict.get category [("Audio", 2); ("Others", 1); ("Photos", 0)].
Proof.
  apply (C3_unmapped_file_counts_as_Others
           (map_extensions_to_folder folder_names)
           [("Audio", 2); ("Others", 1); ("Photos", 0)] 3 1 ("notes.xyz", File)).
  - reflexivity.
  - vm_compute. reflexivity.
  - reflexivity.
Defined.

(** C8. Without ["Others"] among the categories, a folder with a file whose
    extension is not in the index makes [classify_folder_by_content] raise
    [KeyError] instead of returning a category. *)
Theorem C8_classify_folder_raises_KeyError :
  classify_folder_by_content [("song.mp3", File); ("notes.xyz", File)]
    (map_extensions_to_folder [("Audio", ["mp3"])])
    (combine_categories [("Audio", ["mp3"])] [("Photos", ["IMG_"])])
  = Raise (KeyError "Others").
Proof. vm_compute. reflexivity. Qed.

(** ** Multi-part extensions *)

Lemma contains_false_rfind (c : ascii) (s : string) :
  Str.contains c s = false → Str.rfind c s = None.
Proof.
  induction s as [|a t IH]; simpl; [done|].
  intros [Ha Ht]%orb_false_iff. by rewrite IH, Ha.
Qed.

Lemma rfind_append (c : ascii) (s e : string) :
  Str.contains c e = false →
  Str.rfind c (String.append s (String c e)) = Some (String.length s).
Proof.
  intros He. induction s as [|a s IH].
  - change (Str.rfind c (String c e) = Some 0). simpl.
    by rewrite contains_false_rfind, Ascii.eqb_refl.
  - change (Str.rfind c (String a (String.append s (String c e)))
            = Some (S (String.length s))).
    simpl. by rewrite IH.
Qed.

Lemma slice_from_append (s t : string) :
  Str.slice_from (String.length s) (String.append s t) = t.
Proof. induction s as [|a s IH]; [by destruct t | exact IH]. Qed.

Lemma length_append (s t : string) :
  String.length (String.append s t) = String.length s + String.length t.
Proof.
  induction s as [|a s IH]; [done|].
  change (S (String.length (String.append s t))
          = S (String.length s + String.length t)). by rewrite IH.
Qed.

Lemma file_extension_append (file_stem ext : string) :
  file_stem ≠ "" → ext ≠ "" → Str.contains "." ext = false →
  file_extension (String.append file_stem (String "." ext)) = Str.lower ext.
Proof.
  intros Hs He Hdot. unfold file_extension, Path.suffix, Path.has_suffix.
  rewrite rfind_append by done. rewrite length_append.
  assert (H1 : Nat.ltb 0 (String.length file_stem) = true).
  { apply Nat.ltb_lt. destruct file_stem; [done | simpl; lia]. }
  assert (H2 : Nat.ltb (String.length file_stem)
                 (String.length file_stem + String.length (String "." ext) - 1)
               = true).
  { apply Nat.ltb_lt. destruct ext; [done | simpl; lia]. }
  rewrite H1, H2. simpl andb. cbv iota. by rewrite slice_from_append.
Qed.

Lemma count_items_ext (em1 em2 : gmap string string) (items : listing)
    (acc : list (string * nat) * nat) :
  (∀ file_name, em1 !! file_extension file_name = em2 !! file_extension file_name) →
  count_items em1 items acc = count_items em2 items acc.
Proof.
  intros Hext. revert acc. induction items as [|item items IH]; intros acc; [done|].
  simpl. assert (E : count_item em1 acc item = count_item em2 acc item).
  { unfold count_item. destruct acc as [fc n]. by rewrite Hext. }
  rewrite E. destruct (count_item em2 acc item); [apply IH | done].
Qed.

(** C9. The key under which a file is looked up is what follows the last dot
    of its name, lowercased, so it contains no dot; an entry of the index
    whose key contains a dot, such as [tar.gz], is never matched: neither
    classifier is affected by it. *)
Theorem C9_multi_part_extension_never_matched (key : string)
    (Hdot : Str.contains "." key = true) :
  (∀ file_name, file_extension file_name ≠ key)
  ∧ (∀ file_stem ext,
       file_stem ≠ "" → ext ≠ "" → Str.contains "." ext = false →
       file_extension (String.append file_stem (String "." ext)) = Str.lower ext)
  ∧ (∀ file_name rules (extension_map : gmap string string) folder default_folder,
       determine_target_folder file_name rules (<[key := folder]> extension_map)
         default_folder
       = determine_target_folder file_name rules extension_map default_folder)
  ∧ (∀ items (extension_map : gmap string string) folder all_categories,
       classify_folder_by_content items (<[key := folder]> extension_map)
         all_categories
       = classify_folder_by_content items extension_map all_categories).
Proof.
  assert (Hne : ∀ file_name, file_extension file_name ≠ key)
    by (intros file_name; by apply file_extension_neq).
  split; [done|]. split; [exact file_extension_append|]. split.
  - intros file_name rules em folder dflt. unfold determine_target_folder.
    rewrite lookup_insert_ne; [done|]. intros Heq. by apply (Hne file_name).
  - intros items em folder cats. unfold classify_folder_by_content.
    rewrite (count_items_ext (<[key := folder]> em) em); [done|].
    intros file_name. rewrite lookup_insert_ne; [done|].
    intros Heq. by apply (Hne file_name).
Qed.

(** C9 at the key [tar.gz] and the file [archive.tar.gz]. *)
Lemma C9_witness :
  file_extension "archive.tar.gz" = "gz"
  ∧ determine_target_folder "archive.tar.gz" []
      (<["tar.gz" := "Compressed"]> (∅ : gmap string string)) "Others"
    = "Others"
  ∧ classify_folder_by_content [("archive.tar.gz", File)]
      (<["tar.gz" := "Compressed"]> (∅ : gmap string string))
      ["Compressed"; "Others"]
    = Ok "Others".
Proof.
  destruct (C9_multi_part_extension_never_matched "tar.gz" eq_refl)
    as (_ & Hext & Hfile & Hfolder).
  split; [|split].
  - apply (Hext "archive.tar" "gz"); done.
  - rewrite Hfile. reflexivity.
  - rewrite Hfolder. vm_compute. reflexivity.
Defined.

(** ** The mover: what a step does to the folders of the working directory *)

Section mover.
Variable downloads_name : string.
Variable denied : string → bool.

Lemma mkdir_exist_ok_folder (c name : string) (d d' : listing) :
  mkdir_exist_ok name d = Ok d' → is_folder_in c d → is_folder_in c d'.
Proof.
  unfold mkdir_exist_ok. intros H [ch Hc].
  destruct (Dict.get name d) as [[|ch']|]; simplify_eq; [by exists ch|].
  exists ch. by rewrite get_app, Hc.
Qed.

Lemma mkdir_each_folder (c : string) (l : list string) (d : listing) :
  is_folder_in c d → is_folder_in c (mkdir_each l d).1.
Proof.
  revert d. induction l as [|x l IH]; intros d Hc; [done|]. simpl.
  destruct (mkdir_exist_ok x d) as [d'|e] eqn:E; [|done].
  apply IH. by eapply mkdir_exist_ok_folder.
Qed.

Lemma create_folders_folder (c : string) (d : listing)
    (fn : rule_table) (rules : filename_rules) :
  is_folder_in c d → is_folder_in c (create_folders d fn rules).1.
Proof.
  intros Hc. unfold create_folders.
  pose proof (mkdir_each_folder c (Dict.keys fn) d Hc) as H1.
  destruct (mkdir_each (Dict.keys fn) d) as [d1 [e|]]; [done|].
  by apply mkdir_each_folder.
Qed.

Lemma rename_into_Ok (name folder : string) (d d2 : listing) :
  rename_into denied name folder d = Ok d2 →
  ∃ entry children,
    Dict.get name d = Some entry ∧ denied name = false ∧ name ≠ folder
    ∧ Dict.get folder d = Some (Dir children)
    ∧ (name ∉ Dict.keys children)
    ∧ d2 = Dict.put folder (Dir (children ++ [(name, entry)]))
             (Dict.remove name d).
Proof.
  unfold rename_into. intros H.
  destruct (Dict.get name d) as [entry|]; [|done].
  destruct (denied name); [done|].
  destruct (decide (name = folder)); [done|].
  destruct (Dict.get folder d) as [[|children]|]; try done.
  destruct (decide (name ∈ Dict.keys children)); [done|].
  exists entry, children. by simplify_eq.
Qed.

Lemma rename_into_folder (c name folder : string) (d d2 : listing) :
  rename_into denied name folder d = Ok d2 →
  name ≠ c → is_folder_in c d → is_folder_in c d2.
Proof.
  intros (entry & ch & _ & _ & _ & _ & _ & ->)%rename_into_Ok Hne [chc Hc].
  destruct (decide (folder = c)) as [->|Hfc].
  - eexists. apply get_put_eq.
  - exists chc. rewrite get_put_ne by done. by rewrite get_remove_ne.
Qed.

Lemma move_file_folder (c file : string) (em : gmap string string)
    (rules : filename_rules) (w : world) :
  file ≠ c → is_folder_in c (downloads w) →
  is_folder_in c (downloads (move_file denied em rules w file)).
Proof.
  intros Hne Hc. unfold move_file.
  destruct (negb _); [|done].
  destruct (rename_into _ _ _ _) as [d2|e] eqn:E; [|done].
  by eapply rename_into_folder.
Qed.

Lemma move_files_folder (c : string) (files : list string)
    (em : gmap string string) (rules : filename_rules) (w : world) :
  c ∉ files → is_folder_in c (downloads w) →
  is_folder_in c (downloads (move_files denied files em rules w)).
Proof.
  unfold move_files. revert w.
  induction files as [|f files IH]; intros w Hnot Hc; [done|].
  apply not_elem_of_cons in Hnot as [Hne Hnot]. simpl.
  apply IH; [done|]. by apply move_file_folder.
Qed.

Lemma move_folder_category (cats : list string) (em : gmap string string)
    (w : world) (folder : string) :
  folder ∈ cats →
  move_folder downloads_name denied cats em w folder
  = (logging (Skipping_category folder) w, None).
Proof. intros Hin. unfold move_folder. by rewrite decide_True. Qed.

Lemma move_folder_folder (c : string) (cats : list string)
    (em : gmap string string) (w : world) (folder : string) :
  c ∈ cats → is_folder_in c (downloads w) →
  is_folder_in c (downloads (move_folder downloads_name denied cats em w folder).1).
Proof.
  intros Hcat Hc. unfold move_folder.
  destruct (decide (folder ∈ cats)) as [Hf|Hf]; [done|].
  destruct (iterdir _ _) as [items|]; [|done].
  destruct (classify_folder_by_content _ _ _) as [cl|]; [|done].
  destruct (decide (downloads_name ≠ cl)); [|done].
  destruct (mkdir_exist_ok _ _) as [d1|] eqn:E1; [|done].
  pose proof (mkdir_exist_ok_folder c _ _ _ E1 Hc) as Hc1.
  destruct (negb _); [|done].
  destruct (rename_into _ _ _ _) as [d2|] eqn:E2; [|done].
  simpl. eapply rename_into_folder; [done| |done]. by intros ->.
Qed.

Lemma move_folders_loop_folder (c : string) (folders cats : list string)
    (em : gmap string string) (w : world) :
  c ∈ cats → is_folder_in c (downloads w) →
  is_folder_in c (downloads (move_folders_loop downloads_name denied folders
                               cats em w).1).
Proof.
  intros Hcat. revert w. induction folders as [|f folders IH]; intros w Hc; [done|].
  simpl. pose proof (move_folder_folder c cats em w f Hcat Hc) as H1.
  destruct (move_folder _ _ _ _ _ _) as [w' [e|]]; [done|]. by apply IH.
Qed.

Lemma files_are_files (d : listing) (f : string) :
  NoDup (Dict.keys d) → f ∈ (get_files_and_folders d).1 →
  Dict.get f d = Some File.
Proof.
  intros Hnd ([f' n] & -> & Hin)%list_elem_of_fmap_1.
  apply list_elem_of_filter in Hin as [Hfile Hin]. simpl in *.
  destruct n; [|done]. by apply elem_get_Some.
Qed.

Lemma folders_are_folders (d : listing) (f : string) :
  NoDup (Dict.keys d) → f ∈ (get_files_and_folders d).2 → is_folder_in f d.
Proof.
  intros Hnd ([f' n] & -> & Hin)%list_elem_of_fmap_1.
  apply list_elem_of_filter in Hin as [Hdir Hin]. simpl in *.
  destruct n as [|ch]; [done|]. exists ch. by apply elem_get_Some.
Qed.

(** A category folder of the working directory is still one after the run. *)
Lemma main_folder (c : string) (fn : rule_table) (rules : filename_rules)
    (d : listing) :
  c ∈ combine_categories fn rules → NoDup (Dict.keys d) →
  is_folder_in c d →
  is_folder_in c (downloads (main downloads_name denied fn rules d)).
Proof.
  intros Hcat Hnd Hc. unfold main.
  assert (Hfiles : c ∉ (get_files_and_folders d).1).
  { intros Hin. apply files_are_files in Hin; [|done].
    destruct Hc as [ch Hc]. congruence. }
  destruct (get_files_and_folders d) as [files folders]. simpl in Hfiles.
  pose proof (create_folders_folder c d fn rules Hc) as HA.
  destruct (create_folders d fn rules) as [dA [e|]]; [done|]. simpl in HA.
  unfold move_folders_based_on_content.
  pose proof (move_folders_loop_folder c folders (combine_categories fn rules)
                (map_extensions_to_folder fn)
                (move_files denied files (map_extensions_to_folder fn) rules
                   (World dA [])) Hcat) as HC.
  destruct (move_folders_loop _ _ _ _ _ _) as [w' [e|]]; simpl;
    apply HC; by apply move_files_folder.
Qed.

End mover.

(** C7. A folder whose name is a key of the rule table or of the filename
    rules is skipped by the folder step, whatever it contains, with an info
    line; every step of the run, and so the run, leaves it a direct child of
    the working directory. *)
Theorem C7_category_folders_stay (downloads_name : string)
    (denied : string → bool) (fn : rule_table) (rules : filename_rules)
    (c : string)
    (Hcategory : c ∈ Dict.keys fn ∨ c ∈ Dict.keys rules) :
  (∀ em w,
     move_folder downloads_name denied (combine_categories fn rules) em w c
     = (World (downloads w) (log w ++ [Skipping_category c]), None)
     ∧ level_of (Skipping_category c) = INFO)
  ∧ (∀ em w file,
       file ≠ c → is_folder_in c (downloads w) →
       is_folder_in c (downloads (move_file denied em rules w file)))
  ∧ (∀ em w folder,
       is_folder_in c (downloads w) →
       is_folder_in c
         (downloads (move_folder downloads_name denied
                       (combine_categories fn rules) em w folder).1))
  ∧ (∀ d, NoDup (Dict.keys d) → is_folder_in c d →
       is_folder_in c (downloads (main downloads_name denied fn rules d))).
Proof.
  assert (Hcat : c ∈ combine_categories fn rules).
  { unfold combine_categories. rewrite elem_of_remove_dups, elem_of_app. done. }
  split; [|split; [|split]].
  - intros em w. split; [|done]. by apply move_folder_category.
  - intros em w file. apply move_file_folder.
  - intros em w folder. by apply move_folder_folder.
  - intros d. by apply main_folder.
Qed.

(** C7 at the category folders [Others] and [Photos]. *)
Lemma C7_witness :
  move_folder "Downloads" (fun _ => false)
    (combine_categories folder_names filename_sorting_rules)
    (map_extensions_to_folder folder_names)
    (World [("Others", Dir [("a.mp3", File); ("b.mp3", File)])] []) "Others"
  = (World [("Others", Dir [("a.mp3", File); ("b.mp3", File)])]
       [Skipping_category "Others"], None)
  ∧ is_folder_in "Photos"
      (downloads (main "Downloads" (fun _ => false) folder_names
                    filename_sorting_rules
                    [("IMG_1.jpg", File); ("Photos", Dir [("old.mp3", File)]);
                     ("trip", Dir [("x.mp3", File)])])).
Proof.
  assert (H1 : "Others" ∈ Dict.keys folder_names
               ∨ "Others" ∈ Dict.keys filename_sorting_rules).
  { left. apply (bool_decide_unpack _). vm_compute. exact I. }
  assert (H2 : "Photos" ∈ Dict.keys folder_names
               ∨ "Photos" ∈ Dict.keys filename_sorting_rules).
  { right. apply (bool_decide_unpack _). vm_compute. exact I. }
  split.
  - apply (C7_category_folders_stay "Downloads" (fun _ => false) folder_names
             filename_sorting_rules "Others" H1).
  - apply (C7_category_folders_stay "Downloads" (fun _ => false) folder_names
             filename_sorting_rules "Photos" H2).
    + apply (bool_decide_unpack _). vm_compute. exact I.
    + by eexists.
Defined.

(** ** Collisions *)

Lemma exists_in_folder (c name : string) (d : listing) :
  exists_in c name d = true → is_folder_in c d.
Proof.
  unfold exists_in, is_folder_in.
  destruct (Dict.get c d) as [[|ch]|]; try done. by exists ch.
Qed.

Lemma mkdir_exist_ok_id (c : string) (d : listing) :
  is_folder_in c d → mkdir_exist_ok c d = Ok d.
Proof. intros [ch Hc]. unfold mkdir_exist_ok. by rewrite Hc. Qed.

(** C5. When an entry named like the file, or the folder, already exists at
    the target path computed for it, the step leaves the working directory as
    it is (the source stays, the target is not overwritten, nothing is
    renamed) and logs one warning. *)
Theorem C5_collision_skips_the_move (downloads_name : string)
    (denied : string → bool) :
  (∀ em rules w file,
     exists_in (determine_target_folder file rules em "Others") file
       (downloads w) = true →
     move_file denied em rules w file
     = World (downloads w)
         (log w ++ [File_already_exists file
                      (determine_target_folder file rules em "Others")])
     ∧ level_of (File_already_exists file
                   (determine_target_folder file rules em "Others")) = WARNING)
  ∧ (∀ all_categories em w folder items classification,
       folder ∉ all_categories →
       iterdir folder (downloads w) = Ok items →
       classify_folder_by_content items em all_categories = Ok classification →
       downloads_name ≠ classification →
       exists_in classification folder (downloads w) = true →
       move_folder downloads_name denied all_categories em w folder
       = (World (downloads w)
            (log w ++ [Folder_already_exists folder classification]), None)
       ∧ level_of (Folder_already_exists folder classification) = WARNING).
Proof.
  split.
  - intros em rules w file Hex. split; [|done].
    unfold move_file. by rewrite Hex.
  - intros cats em w folder items cl Hnot Hit Hcl Hne Hex. split; [|done].
    unfold move_folder. rewrite decide_False by done. rewrite Hit, Hcl.
    rewrite decide_True by done.
    rewrite mkdir_exist_ok_id by (by eapply exists_in_folder).
    by rewrite Hex.
Qed.

(** C5 at a file and at a folder whose name is taken in the target folder. *)
Lemma C5_witness :
  move_file (fun _ => false) (map_extensions_to_folder folder_names)
    filename_sorting_rules
    (World [("a.mp3", File); ("Audio", Dir [("a.mp3", File)])] []) "a.mp3"
  = World [("a.mp3", File); ("Audio", Dir [("a.mp3", File)])]
      [File_already_exists "a.mp3" "Audio"]
  ∧ move_folder "Downloads" (fun _ => false)
      (combine_categories folder_names filename_sorting_rules)
      (map_extensions_to_folder folder_names)
      (World [("trip", Dir [("x.mp3", File)]);
              ("Audio", Dir [("trip", Dir [])])] []) "trip"
    = (World [("trip", Dir [("x.mp3", File)]);
              ("Audio", Dir [("trip", Dir [])])]
         [Folder_already_exists "trip" "Audio"], None).
Proof.
  split.
  - apply (proj1 (C5_collision_skips_the_move "Downloads" (fun _ => false))
             (map_extensions_to_folder folder_names) filename_sorting_rules
             (World [("a.mp3", File); ("Audio", Dir [("a.mp3", File)])] [])
             "a.mp3").
    vm_compute. reflexivity.
  - apply (proj2 (C5_collision_skips_the_move "Downloads" (fun _ => false))
             (combine_categories folder_names filename_sorting_rules)
             (map_extensions_to_folder folder_names)
             (World [("trip", Dir [("x.mp3", File)]);
                     ("Audio", Dir [("trip", Dir [])])] [])
             "trip" [("x.mp3", File)] "Audio").
    + apply (bool_decide_unpack _). vm_compute. exact I.
    + reflexivity.
    + vm_compute. reflexivity.
    + done.
    + vm_compute. reflexivity.
Defined.

(** C4. A rename that fails in [move_files] is logged and the loop goes on; a
    rename that fails in [move_folders_based_on_content] is not caught there:
    it ends the loop, the folders after it are not processed and the run logs
    one error. *)
Theorem C4_folder_move_failure_aborts_the_run :
  main "Downloads" (fun name => bool_decide (name = "albums")) folder_names
    filename_sorting_rules
    [("albums", Dir [("a.mp3", File)]); ("scans", Dir [("s.pdf", File)])]
  = World
      ([("albums", Dir [("a.mp3", File)]); ("scans", Dir [("s.pdf", File)])]
       ++ ((fun c => (c, Dir [])) <$>
             (Dict.keys folder_names ++ Dict.keys filename_sorting_rules)))
      [Error_occurred (PermissionError "albums")]
  ∧ main "Downloads" (fun name => bool_decide (name = "a.mp3")) folder_names
      filename_sorting_rules [("a.mp3", File); ("s.pdf", File)]
    = World
        ([("a.mp3", File)]
         ++ ((fun c => (c, if decide (c = "Documents")
                           then Dir [("s.pdf", File)] else Dir [])) <$>
               (Dict.keys folder_names ++ Dict.keys filename_sorting_rules)))
        [Could_not_move "a.mp3" "Audio" (PermissionError "a.mp3");
         Moved "s.pdf" "Documents"; Organized].
Proof. split; vm_compute; reflexivity. Qed.

(** ** Where the classifiers send entries *)

Lemma map_extensions_to_folder_values (fn : rule_table) (e c : string) :
  map_extensions_to_folder fn !! e = Some c → c ∈ Dict.keys fn.
Proof.
  unfold map_extensions_to_folder.
  assert (Hin : ∀ exts folder (m : gmap string string) (Q : string → Prop),
    (∀ e c, m !! e = Some c → Q c) → Q folder →
    ∀ e c, fold_left (fun m ext => <[ext := folder]> m) exts m !! e = Some c
           → Q c).
  { induction exts as [|x exts IH]; intros folder m Q Hm Hf e' c' H; simpl in H.
    - by eapply Hm.
    - eapply (IH folder (<[x := folder]> m) Q); [|done|exact H].
      intros e'' c''. destruct (decide (x = e'')) as [->|Hne].
      + rewrite lookup_insert_eq. by intros [= <-].
      + rewrite lookup_insert_ne by done. apply Hm. }
  assert (Hout : ∀ l (m : gmap string string) (Q : string → Prop),
    (∀ e c, m !! e = Some c → Q c) → (∀ c, c ∈ Dict.keys l → Q c) →
    ∀ e c,
      fold_left
        (fun extension_map '(folder, extensions) =>
           fold_left (fun m extension => <[extension := folder]> m)
             extensions extension_map) l m !! e = Some c → Q c).
  { induction l as [|[folder exts] l IH]; intros m Q Hm Hl e' c' H; simpl in H.
    - by eapply Hm.
    - eapply (IH _ Q); [| |exact H].
      + apply Hin; [done|]. apply Hl. by left.
      + intros c'' Hc''. apply Hl. by right. }
  apply (Hout fn ∅ (fun c => c ∈ Dict.keys fn)); [|done].
  intros e' c'. by rewrite lookup_empty.
Qed.

Lemma match_filename_rules_key (file_stem : string) (rules : filename_rules)
    (folder : string) :
  match_filename_rules file_stem rules = Some folder → folder ∈ Dict.keys rules.
Proof.
  induction rules as [|[f ps] rules IH]; simpl; [done|].
  destruct (any_startswith file_stem ps).
  - intros [= ->]. by left.
  - intros H. right. by apply IH.
Qed.

Lemma elem_of_combine_categories (fn : rule_table) (rules : filename_rules)
    (c : string) :
  c ∈ combine_categories fn rules ↔ c ∈ Dict.keys fn ∨ c ∈ Dict.keys rules.
Proof.
  unfold combine_categories. by rewrite elem_of_remove_dups, elem_of_app.
Qed.

Lemma bucket_count_pos (em : gmap string string) (c : string) (items : listing) :
  (0 < bucket_count em c items)%nat → ∃ item, bucket em item = c.
Proof.
  induction items as [|item items IH]; [unfold bucket_count; simpl; lia|].
  rewrite bucket_count_cons. unfold counted.
  destruct (decide _) as [[_ Hb]|_]; [by exists item | apply IH].
Qed.

Lemma bucket_value (em : gmap string string) (item : string * node) :
  bucket em item = "Others" ∨ ∃ e, em !! e = Some (bucket em item).
Proof.
  unfold bucket. destruct (em !! file_extension item.1) as [c|] eqn:E; simpl.
  - destruct (decide (c = "")); simpl; [by left|]. right. by eexists.
  - by left.
Qed.

Section targets.
Variable fn : rule_table.
Variable rules : filename_rules.
Hypothesis HOthers : "Others" ∈ combine_categories fn rules.

Lemma determine_target_folder_category (file : string) :
  determine_target_folder file rules (map_extensions_to_folder fn) "Others"
  ∈ combine_categories fn rules.
Proof.
  unfold determine_target_folder.
  destruct (match_filename_rules _ _) as [folder|] eqn:E.
  - apply elem_of_combine_categories. right.
    by eapply match_filename_rules_key.
  - destruct (map_extensions_to_folder fn !! file_extension file) as [c|] eqn:E'.
    + apply elem_of_combine_categories. left.
      by eapply map_extensions_to_folder_values.
    + done.
Qed.

Lemma classify_folder_by_content_category (items : listing) (c : string) :
  classify_folder_by_content items (map_extensions_to_folder fn)
    (combine_categories fn rules) = Ok c →
  c ∈ combine_categories fn rules.
Proof.
  intros E.
  destruct (classify_folder_by_content_Ok items (map_extensions_to_folder fn)
              (combine_categories fn rules) HOthers) as (c' & E' & Hc' & _).
  rewrite E in E'. injection E' as <-.
  destruct Hc' as [->|Hmaj]; [done|].
  destruct (bucket_count_pos (map_extensions_to_folder fn) c items)
    as [item <-]; [lia|].
  destruct (bucket_value (map_extensions_to_folder fn) item) as [->|[e He]];
    [done|].
  apply elem_of_combine_categories. left.
  by eapply map_extensions_to_folder_values.
Qed.

End targets.

(** ** Creating the category folders *)

Lemma extends_refl (d : listing) : extends d d.
Proof. by intros n v. Qed.

Lemma extends_trans (d1 d2 d3 : listing) :
  extends d1 d2 → extends d2 d3 → extends d1 d3.
Proof. intros H12 H23 n v H. by apply H23, H12. Qed.

Lemma extends_folder (c : string) (d d' : listing) :
  extends d d' → is_folder_in c d → is_folder_in c d'.
Proof. intros H [ch Hc]. exists ch. by apply H. Qed.

Lemma mkdir_exist_ok_spec (x : string) (d d' : listing) :
  mkdir_exist_ok x d = Ok d' →
  (d' = d ∧ is_folder_in x d)
  ∨ (d' = d ++ [(x, Dir [])] ∧ Dict.get x d = None).
Proof.
  unfold mkdir_exist_ok, is_folder_in.
  destruct (Dict.get x d) as [[|ch]|]; intros H; simplify_eq.
  - left. split; [done|]. by exists ch.
  - by right.
Qed.

Lemma get_snoc_None {V : Type} (k x : string) (v : V) (d : list (string * V)) :
  Dict.get x d = None →
  Dict.get k (d ++ [(x, v)])
  = if decide (k = x) then Some v else Dict.get k d.
Proof.
  intros Hx. rewrite get_app. simpl.
  destruct (decide (k = x)) as [->|Hne]; [by rewrite Hx|].
  by destruct (Dict.get k d).
Qed.

Lemma dirs_snoc (x : string) (d : listing) :
  (get_files_and_folders (d ++ [(x, Dir [])])).2
  = (get_files_and_folders d).2 ++ [x].
Proof.
  unfold get_files_and_folders, Dict.keys. simpl.
  by rewrite filter_app, fmap_app.
Qed.

Lemma mkdir_each_spec (l : list string) (d d' : listing) (r : option exn) :
  mkdir_each l d = (d', r) →
  extends d d'
  ∧ (NoDup (Dict.keys d) → NoDup (Dict.keys d'))
  ∧ (r = None → ∀ c, c ∈ l → is_folder_in c d')
  ∧ (∃ extra, (get_files_and_folders d').2 = (get_files_and_folders d).2 ++ extra
              ∧ ∀ x, x ∈ extra → x ∈ l)
  ∧ (∀ g, Dict.get g d' = Some File → Dict.get g d = Some File).
Proof.
  revert d. induction l as [|x l IH]; intros d H; simpl in H.
  - injection H as <- <-. split; [apply extends_refl|]. split; [done|].
    split; [by intros _ c Hc%elem_of_nil|].
    split; [|done]. exists []. by rewrite app_nil_r.
  - destruct (mkdir_exist_ok x d) as [d1|e] eqn:E.
    + destruct (IH d1 H) as (Hext & Hnd & Hall & (extra & Hdirs & Hextra) & Hf).
      apply mkdir_exist_ok_spec in E as [[-> Hx]|[-> Hx]].
      * split; [done|]. split; [done|]. split; [|split; [|done]].
        -- intros Hr c [->|Hc]%elem_of_cons; [|by apply Hall].
           by eapply extends_folder.
        -- exists extra. split; [done|]. intros y Hy. right. by apply Hextra.
      * assert (Hext1 : extends d (d ++ [(x, Dir [])])).
        { intros n v Hn. by rewrite get_app, Hn. }
        split; [by eapply extends_trans|]. split; [|split; [|split]].
        -- intros Hd. apply Hnd. unfold Dict.keys. rewrite fmap_app.
           apply NoDup_app. split; [done|]. split; [|apply NoDup_singleton].
           intros y Hy ->%list_elem_of_singleton. by apply get_None in Hx.
        -- intros Hr c [->|Hc]%elem_of_cons; [|by apply Hall].
           apply (extends_folder _ _ _ Hext). exists [].
           rewrite get_snoc_None by done. by rewrite decide_True.
        -- exists (x :: extra). rewrite Hdirs, dirs_snoc.
           rewrite <- app_assoc. split; [done|].
           intros y [->|Hy]%elem_of_cons; [by left | right; by apply Hextra].
        -- intros g Hg. apply Hf in Hg. rewrite get_snoc_None in Hg by done.
           by destruct (decide (g = x)).
    + injection H as <- <-. split; [apply extends_refl|]. split; [done|].
      split; [done|]. split; [|done]. exists [].
      split; [by rewrite app_nil_r | by intros y Hy%elem_of_nil].
Qed.

Lemma mkdir_each_idem (l : list string) (d d' D : listing) (r : option exn) :
  mkdir_each l d = (d', r) → extends d' D → mkdir_each l D = (D, r).
Proof.
  revert d. induction l as [|x l IH]; intros d H Hext; simpl in H.
  - by injection H as <- <-.
  - simpl. destruct (mkdir_exist_ok x d) as [d1|e] eqn:E.
    + destruct (mkdir_each_spec l d1 d' r H) as (Hext1 & _).
      assert (Hx : is_folder_in x d1).
      { apply mkdir_exist_ok_spec in E as [[-> Hx]|[-> Hx]]; [done|].
        exists []. rewrite get_snoc_None by done. by rewrite decide_True. }
      rewrite mkdir_exist_ok_id.
      * by eapply IH.
      * by apply (extends_folder _ _ _ Hext), (extends_folder _ _ _ Hext1).
    + injection H as <- <-. unfold mkdir_exist_ok in *.
      destruct (Dict.get x d) as [[|ch]|] eqn:Hx; try done.
      injection E as <-. by rewrite (Hext _ _ Hx).
Qed.

Lemma mkdir_each_id (l : list string) (d : listing) :
  (∀ c, c ∈ l → is_folder_in c d) → mkdir_each l d = (d, None).
Proof.
  induction l as [|x l IH]; intros H; [done|]. simpl.
  rewrite mkdir_exist_ok_id by (apply H; by left).
  apply IH. intros c Hc. apply H. by right.
Qed.

Section create.
Variable fn : rule_table.
Variable rules : filename_rules.

(** A run whose [create_folders] raised raises again, on the same folder,
    when it is started on what that run left. *)
Lemma create_folders_idem (d d' : listing) (r : option exn) :
  create_folders d fn rules = (d', r) → create_folders d' fn rules = (d', r).
Proof.
  unfold create_folders. intros H.
  destruct (mkdir_each (Dict.keys fn) d) as [d1 [e|]] eqn:E1.
  - injection H as <- <-.
    by rewrite (mkdir_each_idem _ _ _ d1 _ E1 (extends_refl d1)).
  - destruct (mkdir_each_spec _ _ _ _ H) as (Hext & _).
    rewrite (mkdir_each_idem _ _ _ d' _ E1 Hext).
    by apply (mkdir_each_idem _ _ _ d' _ H), extends_refl.
Qed.

Lemma create_folders_id (d : listing) :
  well_formed (combine_categories fn rules) d →
  create_folders d fn rules = (d, None).
Proof.
  intros [_ Hcats]. unfold create_folders.
  rewrite mkdir_each_id; [apply mkdir_each_id|];
    intros c Hc; apply Hcats, elem_of_combine_categories; tauto.
Qed.

Lemma create_folders_spec (d d' : listing) :
  create_folders d fn rules = (d', None) → NoDup (Dict.keys d) →
  well_formed (combine_categories fn rules) d'
  ∧ (∃ extra, (get_files_and_folders d').2 = (get_files_and_folders d).2 ++ extra
              ∧ ∀ x, x ∈ extra → x ∈ combine_categories fn rules)
  ∧ (∀ g, Dict.get g d' = Some File → Dict.get g d = Some File)
  ∧ extends d d'.
Proof.
  unfold create_folders. intros H Hnd.
  destruct (mkdir_each (Dict.keys fn) d) as [d1 [e|]] eqn:E1; [done|].
  destruct (mkdir_each_spec _ _ _ _ E1)
    as (Hext1 & Hnd1 & Hall1 & (extra1 & Hdirs1 & Hextra1) & Hf1).
  destruct (mkdir_each_spec _ _ _ _ H)
    as (Hext2 & Hnd2 & Hall2 & (extra2 & Hdirs2 & Hextra2) & Hf2).
  split; [split|split].
  - auto.
  - intros c [Hc|Hc]%elem_of_combine_categories.
    + apply (extends_folder _ _ _ Hext2). by apply Hall1.
    + by apply Hall2.
  - exists (extra1 ++ extra2). rewrite Hdirs2, Hdirs1, <- app_assoc.
    split; [done|]. intros x [Hx|Hx]%elem_of_app;
      apply elem_of_combine_categories; auto.
  - split; [auto | by eapply extends_trans].
Qed.

End create.

(** ** Moving an entry into a category folder *)

Lemma keys_remove {V : Type} (k : string) (d : list (string * V)) :
  Dict.keys (Dict.remove k d) = filter (fun n => n ≠ k) (Dict.keys d).
Proof.
  unfold Dict.keys, Dict.remove. induction d as [|[k' v] d IH]; [done|].
  rewrite fmap_cons, !filter_cons. simpl.
  destruct (decide (k' ≠ k)); [by rewrite fmap_cons, IH | done].
Qed.

Lemma dirs_NoDup (d : listing) :
  NoDup (Dict.keys d) → NoDup (get_files_and_folders d).2.
Proof.
  intros Hnd. apply (sublist_NoDup _ (Dict.keys d)); [done|].
  unfold get_files_and_folders, Dict.keys. simpl.
  apply fmap_sublist, sublist_filter.
Qed.

Lemma dirs_remove (k : string) (d : listing) :
  (get_files_and_folders (Dict.remove k d)).2
  = filter (fun n => n ≠ k) (get_files_and_folders d).2.
Proof.
  unfold get_files_and_folders, Dict.keys, Dict.remove. simpl.
  induction d as [|[k' v] d IH]; [done|].
  rewrite !filter_cons. simpl.
  destruct (decide (k' ≠ k)) as [Hk|Hk];
    destruct (decide (is_dir v = true)) as [Hv|Hv];
    rewrite ?filter_cons; simpl;
    rewrite ?decide_True by done; rewrite ?decide_False by done;
    rewrite ?fmap_cons, ?filter_cons; simpl;
    rewrite ?decide_True by done; rewrite ?decide_False by done;
    by rewrite ?IH.
Qed.

Lemma dirs_put (c : string) (ch ch' : listing) (d : listing) :
  Dict.get c d = Some (Dir ch) →
  (get_files_and_folders (Dict.put c (Dir ch') d)).2
  = (get_files_and_folders d).2.
Proof.
  unfold get_files_and_folders, Dict.keys. simpl.
  induction d as [|[k v] d IH]; [done|]. simpl.
  destruct (decide (c = k)) as [->|Hne].
  - intros [= ->]. rewrite !filter_cons. simpl.
    first [done | by rewrite !decide_True].
  - intros H. rewrite !filter_cons. simpl.
    destruct (decide (is_dir v = true)); by rewrite ?fmap_cons, IH.
Qed.

Lemma filter_ne_notin (x : string) (l : list string) :
  x ∉ l → filter (fun n => n ≠ x) l = l.
Proof.
  induction l as [|y l IH]; [done|]. intros [Hne Hl]%not_elem_of_cons.
  rewrite filter_cons, decide_True by done. by rewrite IH.
Qed.

Lemma filter_ne_middle (x : string) (p r : list string) :
  NoDup (p ++ x :: r) → filter (fun n => n ≠ x) (p ++ x :: r) = p ++ r.
Proof.
  intros (_ & Hp & [Hr _]%NoDup_cons)%NoDup_app.
  rewrite filter_app, filter_cons, decide_False by (by intros ?).
  rewrite !filter_ne_notin; [done|done|].
  intros Hx. apply (Hp x Hx). by left.
Qed.

Section moved.
Variable cats : list string.
Variables (name : string) (entry : node) (c : string) (ch : listing).
Variable d : listing.
Hypothesis Hwf : well_formed cats d.
Hypothesis Hname : name ∉ cats.
Hypothesis Hc : c ∈ cats.
Hypothesis Hentry : Dict.get name d = Some entry.
Hypothesis Hch : Dict.get c d = Some (Dir ch).

Local Abbreviation d2 :=
  (Dict.put c (Dir (ch ++ [(name, entry)])) (Dict.remove name d)).

Lemma moved_ne : name ≠ c.
Proof. intros ->. done. Qed.

Lemma moved_get (k : string) :
  Dict.get k d2
  = if decide (k = c) then Some (Dir (ch ++ [(name, entry)]))
    else if decide (k = name) then None else Dict.get k d.
Proof.
  destruct (decide (k = c)) as [->|Hkc]; [apply get_put_eq|].
  rewrite get_put_ne by done.
  destruct (decide (k = name)) as [->|Hkn]; [apply get_remove_eq|].
  by apply get_remove_ne.
Qed.

Lemma moved_well_formed : well_formed cats d2.
Proof.
  destruct Hwf as [Hnd Hcats]. split.
  - rewrite keys_put, decide_True.
    + rewrite keys_remove. by apply NoDup_filter.
    + apply get_is_Some. rewrite get_remove_ne by apply moved_ne. by eexists.
  - intros c' Hc'. unfold is_folder_in. rewrite moved_get.
    destruct (decide (c' = c)); [by eexists|].
    rewrite decide_False by (by intros ->). by apply Hcats.
Qed.

Lemma moved_dirs :
  (get_files_and_folders d2).2
  = filter (fun n => n ≠ name) (get_files_and_folders d).2.
Proof.
  rewrite (dirs_put c ch), dirs_remove; [done|].
  rewrite get_remove_ne by apply moved_ne. done.
Qed.

Lemma moved_exists_in (c' x : string) :
  c' ∈ cats → exists_in c' x d = true → exists_in c' x d2 = true.
Proof.
  intros Hc'. unfold exists_in. rewrite moved_get.
  destruct (decide (c' = c)) as [->|Hne].
  - rewrite Hch. intros Hx%bool_decide_eq_true. apply bool_decide_eq_true.
    unfold Dict.keys in *. rewrite fmap_app, elem_of_app. by left.
  - by rewrite decide_False by (by intros ->).
Qed.

End moved.

(** ** A second run *)

Section second_run.
Variable downloads_name : string.
Variable denied : string → bool.
Variable fn : rule_table.
Variable rules : filename_rules.
Hypothesis HOthers : "Others" ∈ combine_categories fn rules.

Local Abbreviation cats := (combine_categories fn rules).
Local Abbreviation em := (map_extensions_to_folder fn).

(** Entries left in place stay left in place when another entry is moved. *)

Lemma stuck_file_moved (name : string) (entry : node) (c : string)
    (ch d : listing) (g : string) :
  name ∉ cats → c ∈ cats → Dict.get c d = Some (Dir ch) →
  stuck_file denied rules em d g →
  stuck_file denied rules em
    (Dict.put c (Dir (ch ++ [(name, entry)])) (Dict.remove name d)) g.
Proof.
  intros Hname Hc Hch [Hex|Hden]; [left | by right].
  eapply moved_exists_in; eauto.
  by apply determine_target_folder_category.
Qed.

Lemma stuck_folder_moved (name : string) (entry : node) (c : string)
    (ch d : listing) (x : string) :
  name ∉ cats → c ∈ cats → Dict.get c d = Some (Dir ch) → x ≠ name →
  stuck_folder downloads_name cats em d x →
  stuck_folder downloads_name cats em
    (Dict.put c (Dir (ch ++ [(name, entry)])) (Dict.remove name d)) x.
Proof.
  intros Hname Hc Hch Hx [Hin|(items & cl & Hget & Hcl & Hor)]; [by left|].
  destruct (decide (x ∈ cats)) as [|Hxc]; [by left|]. right.
  exists items, cl. split; [|split; [done|]].
  - rewrite moved_get, decide_False by (by intros ->).
    by rewrite decide_False.
  - destruct Hor as [|Hex]; [by left|]. right.
    eapply moved_exists_in; eauto.
    by eapply classify_folder_by_content_category.
Qed.

(** Entries left in place are passed over without a move. *)

Lemma stuck_file_quiet (d : listing) (f : string) (lg : list message) :
  stuck_file denied rules em d f →
  ∃ m, move_file denied em rules (World d lg) f = World d (lg ++ [m])
       ∧ is_move m = false.
Proof.
  intros Hs. unfold move_file. simpl.
  destruct (exists_in _ f d) eqn:Hex; simpl; [by eexists|].
  destruct Hs as [Hs|Hden]; [congruence|]. unfold rename_into.
  destruct (Dict.get f d); [rewrite Hden|]; by eexists.
Qed.

Lemma move_files_quiet (files : list string) (d : listing) (lg : list message) :
  (∀ f, f ∈ files → stuck_file denied rules em d f) →
  ∃ ms, move_files denied files em rules (World d lg) = World d (lg ++ ms)
        ∧ Forall (fun m => is_move m = false) ms.
Proof.
  unfold move_files. revert lg.
  induction files as [|f files IH]; intros lg Hs; simpl.
  - exists []. by rewrite app_nil_r.
  - destruct (stuck_file_quiet d f lg) as (m & -> & Hm); [apply Hs; by left|].
    destruct (IH (lg ++ [m])) as (ms & -> & Hms);
      [intros g Hg; apply Hs; by right|].
    exists (m :: ms). rewrite <- app_assoc. split; [done|]. by constructor.
Qed.

Lemma stuck_folder_quiet (d : listing) (x : string) (lg : list message) :
  stuck_folder downloads_name cats em d x →
  ∃ m, move_folder downloads_name denied cats em (World d lg) x
       = (World d (lg ++ [m]), None)
       ∧ is_move m = false.
Proof.
  intros Hs. unfold move_folder. simpl.
  destruct (decide (x ∈ cats)) as [|Hxc]; [by eexists|].
  destruct Hs as [|(items & cl & Hget & Hcl & Hor)]; [done|].
  unfold iterdir. rewrite Hget, Hcl.
  destruct (decide (downloads_name ≠ cl)) as [Hne|]; [|by eexists].
  destruct Hor as [|Hex]; [done|].
  rewrite mkdir_exist_ok_id by (by eapply exists_in_folder).
  rewrite Hex. simpl. by eexists.
Qed.

Lemma move_folders_loop_stuck (p l : list string) (d : listing)
    (lg : list message) :
  (∀ x, x ∈ p → stuck_folder downloads_name cats em d x) →
  ∃ ms, Forall (fun m => is_move m = false) ms
        ∧ move_folders_loop downloads_name denied (p ++ l) cats em (World d lg)
          = move_folders_loop downloads_name denied l cats em
              (World d (lg ++ ms)).
Proof.
  revert lg. induction p as [|x p IH]; intros lg Hs.
  - exists []. by rewrite app_nil_r.
  - destruct (stuck_folder_quiet d x lg) as (m & E & Hm); [apply Hs; by left|].
    destruct (IH (lg ++ [m])) as (ms & Hms & E');
      [intros y Hy; apply Hs; by right|].
    exists (m :: ms). split; [by constructor|].
    simpl. rewrite E, E'. by rewrite <- app_assoc.
Qed.

Lemma stuck_folders_quiet (p : list string) (d : listing) :
  (∀ x, x ∈ p → stuck_folder downloads_name cats em d x) →
  quiet_folders downloads_name denied cats em p d.
Proof.
  intros Hs lg.
  destruct (move_folders_loop_stuck p [] d lg Hs) as (ms & Hms & E).
  rewrite app_nil_r in E. exists ms, None. by rewrite E.
Qed.

(** One step of the file loop: the file stays, for a reason that lasts, or it
    goes into its category folder. *)
Lemma move_file_step (d : listing) (f : string) (lg : list message) :
  well_formed cats d → ¬ is_folder_in f d →
  (downloads (move_file denied em rules (World d lg) f) = d
   ∧ (Dict.get f d = Some File → stuck_file denied rules em d f))
  ∨ (∃ c ch,
       c ∈ cats ∧ Dict.get f d = Some File ∧ Dict.get c d = Some (Dir ch)
       ∧ downloads (move_file denied em rules (World d lg) f)
         = Dict.put c (Dir (ch ++ [(f, File)])) (Dict.remove f d)).
Proof.
  intros [Hnd Hcats] Hnf. unfold move_file, stuck_file. simpl.
  pose proof (determine_target_folder_category fn rules HOthers f) as Hc.
  set (c := determine_target_folder f rules em "Others") in *.
  destruct (exists_in c f d) eqn:Hex; simpl; [left; auto|].
  unfold rename_into.
  destruct (Dict.get f d) as [entry|] eqn:Hf; [|by left].
  destruct (denied f) eqn:Hden; [left; auto|].
  destruct (decide (f = c)) as [Heq|Hne];
    [destruct Hnf; rewrite Heq; by apply Hcats|].
  destruct (Hcats c Hc) as [ch Hch]. rewrite Hch.
  unfold exists_in in Hex. rewrite Hch in Hex.
  apply bool_decide_eq_false in Hex. rewrite decide_False by done. simpl.
  destruct entry as [|items]; [|destruct Hnf; by exists items].
  right. by exists c, ch.
Qed.

Lemma move_files_spec (files : list string) (d : listing) (lg : list message) :
  well_formed cats d → (∀ f, f ∈ files → ¬ is_folder_in f d) →
  let d' := downloads (move_files denied files em rules (World d lg)) in
  well_formed cats d'
  ∧ (get_files_and_folders d').2 = (get_files_and_folders d).2
  ∧ (∀ g, stuck_file denied rules em d g → stuck_file denied rules em d' g)
  ∧ (∀ g, Dict.get g d' = Some File →
          Dict.get g d = Some File
          ∧ (g ∈ files → stuck_file denied rules em d' g)).
Proof.
  unfold move_files. revert d lg.
  induction files as [|f files IH]; intros d lg Hwf Hnf; cbn [fold_left].
  - simpl. split; [done|]. split; [done|]. split; [done|].
    intros g Hg. split; [done|]. by intros ?%elem_of_nil.
  - assert (Hf : ¬ is_folder_in f d) by (apply Hnf; by left).
    destruct (move_file denied em rules (World d lg) f) as [d1 lg1] eqn:E.
    destruct (move_file_step d f lg Hwf Hf)
      as [[Hd Hst]|(c & ch & Hc & Hfile & Hch & Hd)];
      rewrite E in Hd; simpl in Hd; subst d1.
    + destruct (IH d lg1 Hwf) as (Hwf' & Hdirs & Hmono & Hfiles);
        [intros g Hg; apply Hnf; by right|].
      split; [done|]. split; [done|]. split; [done|].
      intros g Hg. destruct (Hfiles g Hg) as [Hgd Hgst]. split; [done|].
      intros [->|Hin]%elem_of_cons; [by apply Hmono, Hst | auto].
    + assert (Hfc : f ∉ cats).
      { intros Hin. apply Hf. by apply Hwf. }
      assert (Hwf2 : well_formed cats
                (Dict.put c (Dir (ch ++ [(f, File)])) (Dict.remove f d)))
        by (eapply moved_well_formed; eauto).
      destruct (IH _ lg1 Hwf2) as (Hwf' & Hdirs & Hmono & Hfiles).
      { intros g Hg [items Hitems]. rewrite moved_get in Hitems.
        destruct (decide (g = c)) as [->|Hgc].
        - apply (Hnf c); [by right|]. by exists ch.
        - destruct (decide (g = f)); [done|].
          apply (Hnf g); [by right|]. by exists items. }
      split; [done|]. split; [|split].
      * rewrite Hdirs. erewrite moved_dirs by eauto.
        apply filter_ne_notin. intros Hin.
        apply folders_are_folders in Hin; [done | apply Hwf].
      * intros g Hg. apply Hmono. by apply stuck_file_moved.
      * intros g Hg. destruct (Hfiles g Hg) as [Hg2 Hgst].
        rewrite moved_get in Hg2.
        destruct (decide (g = c)); [done|].
        destruct (decide (g = f)); [done|]. split; [done|].
        intros [->|Hin]%elem_of_cons; [done | auto].
Qed.

(** One step of the folder loop: the folder stays in place, or the step
    raises and leaves everything as it is, or the folder goes into its
    category folder. *)
Lemma move_folder_step (d : listing) (x : string) (items : listing) :
  well_formed cats d → Dict.get x d = Some (Dir items) →
  stuck_folder downloads_name cats em d x
  ∨ (∃ e, ∀ lg, move_folder downloads_name denied cats em (World d lg) x
                = (World d lg, Some e))
  ∨ ((x ∉ cats)
     ∧ ∃ c ch,
         c ∈ cats ∧ Dict.get c d = Some (Dir ch)
         ∧ ∀ lg, move_folder downloads_name denied cats em (World d lg) x
                 = (World (Dict.put c (Dir (ch ++ [(x, Dir items)]))
                             (Dict.remove x d))
                      (lg ++ [Moved_folder x c]), None)).
Proof.
  intros [Hnd Hcats] Hx.
  destruct (decide (x ∈ cats)) as [|Hxc]; [left; by left|].
  destruct (classify_folder_by_content items em cats) as [cl|e] eqn:Hcl.
  2:{ right; left. exists e. intros lg. unfold move_folder, iterdir. simpl.
      by rewrite decide_False, Hx, Hcl. }
  pose proof (classify_folder_by_content_category fn rules HOthers items cl Hcl)
    as Hclc.
  destruct (decide (downloads_name = cl)) as [Hdn|Hdn].
  { left. right. exists items, cl. auto. }
  destruct (exists_in cl x d) eqn:Hex.
  { left. right. exists items, cl. auto. }
  destruct (Hcats cl Hclc) as [ch Hch].
  assert (Hxcl : x ≠ cl) by (by intros ->).
  assert (Hxch : x ∉ Dict.keys ch).
  { unfold exists_in in Hex. rewrite Hch in Hex.
    by apply bool_decide_eq_false in Hex. }
  destruct (denied x) eqn:Hden.
  - right; left. exists (PermissionError x). intros lg.
    unfold move_folder, iterdir. simpl.
    rewrite decide_False, Hx, Hcl, decide_True by done.
    rewrite mkdir_exist_ok_id by (by exists ch). rewrite Hex. simpl.
    unfold rename_into. by rewrite Hx, Hden.
  - right; right. split; [done|]. exists cl, ch. split; [done|]. split; [done|].
    intros lg. unfold move_folder, iterdir. simpl.
    rewrite decide_False, Hx, Hcl, decide_True by done.
    rewrite mkdir_exist_ok_id by (by exists ch). rewrite Hex. simpl.
    unfold rename_into. rewrite Hx, Hden, decide_False, Hch by done.
    by rewrite decide_False.
Qed.

Lemma move_folders_loop_spec (l p q : list string) (d : listing)
    (lg : list message) :
  well_formed cats d →
  (get_files_and_folders d).2 = p ++ l ++ q →
  (∀ x, x ∈ p ++ q → stuck_folder downloads_name cats em d x) →
  let d' := downloads (move_folders_loop downloads_name denied l cats em
                         (World d lg)).1 in
  well_formed cats d'
  ∧ quiet_folders downloads_name denied cats em (get_files_and_folders d').2 d'
  ∧ (∀ g, stuck_file denied rules em d g → stuck_file denied rules em d' g)
  ∧ (∀ g, Dict.get g d' = Some File → Dict.get g d = Some File).
Proof.
  revert p d lg. induction l as [|x l IH]; intros p d lg Hwf Hdirs Hst.
  - cbn [move_folders_loop fst downloads]. split; [done|]. split; [|done].
    rewrite Hdirs. by apply stuck_folders_quiet.
  - assert (Hxin : x ∈ (get_files_and_folders d).2).
    { rewrite Hdirs. apply elem_of_app. right. simpl. by left. }
    destruct (folders_are_folders d x (proj1 Hwf) Hxin) as [items Hx].
    destruct (move_folder_step d x items Hwf Hx)
      as [Hs|[(e & He)|(Hxc & c & ch & Hc & Hch & Hmv)]].
    + destruct (stuck_folder_quiet d x lg Hs) as (m & E & _).
      cbn [move_folders_loop]. rewrite E.
      apply (IH (p ++ [x])); [done | by rewrite <- app_assoc |].
      intros y Hy. rewrite <- app_assoc in Hy.
      apply elem_of_app in Hy as [Hy|[->|Hy]%elem_of_cons]; [|done|];
        apply Hst; rewrite elem_of_app; auto.
    + cbn [move_folders_loop]. rewrite He. cbn [fst downloads].
      split; [done|]. split; [|done]. intros lg'. rewrite Hdirs.
      destruct (move_folders_loop_stuck p ((x :: l) ++ q) d lg')
        as (ms & Hms & E).
      { intros y Hy. apply Hst. rewrite elem_of_app. auto. }
      exists ms, (Some e). rewrite E. cbn [move_folders_loop app].
      by rewrite He.
    + cbn [move_folders_loop]. rewrite Hmv.
      assert (Hnd : NoDup (p ++ x :: (l ++ q))).
      { change (NoDup (p ++ (x :: l) ++ q)). rewrite <- Hdirs.
        apply dirs_NoDup, Hwf. }
      assert (Hwf2 : well_formed cats
                (Dict.put c (Dir (ch ++ [(x, Dir items)])) (Dict.remove x d)))
        by (eapply moved_well_formed; eauto).
      destruct (IH p _ (lg ++ [Moved_folder x c]) Hwf2)
        as (Hwf' & Hq & Hmono & Hfiles).
      { erewrite moved_dirs by eauto. rewrite Hdirs.
        by apply (filter_ne_middle x p (l ++ q)). }
      { intros y Hy. apply stuck_folder_moved; [done..| |by apply Hst].
        intros ->. apply NoDup_app in Hnd as (_ & Hp & [Hx' _]%NoDup_cons).
        apply elem_of_app in Hy as [Hy|Hy].
        - apply (Hp x Hy). by left.
        - apply Hx'. rewrite elem_of_app. by right. }
      split; [done|]. split; [done|]. split.
      * intros g Hg. apply Hmono. by apply stuck_file_moved.
      * intros g Hg. apply Hfiles in Hg. rewrite moved_get in Hg.
        destruct (decide (g = c)); [done|]. by destruct (decide (g = x)).
Qed.

Lemma files_get (d : listing) (g : string) :
  Dict.get g d = Some File → g ∈ (get_files_and_folders d).1.
Proof.
  intros Hg%get_Some_elem. unfold get_files_and_folders, Dict.keys. simpl.
  apply (list_elem_of_fmap_2' fst _ (g, File)); [|done].
  by apply list_elem_of_filter.
Qed.

(** What a run leaves, and what a run does on such a directory. *)

Lemma main_spec (d0 : listing) :
  NoDup (Dict.keys d0) →
  let d1 := downloads (main downloads_name denied fn rules d0) in
  (∃ e, create_folders d0 fn rules = (d1, Some e))
  ∨ (well_formed cats d1
     ∧ (∀ f, Dict.get f d1 = Some File → stuck_file denied rules em d1 f)
     ∧ quiet_folders downloads_name denied cats em
         (get_files_and_folders d1).2 d1).
Proof.
  intros Hnd. unfold main.
  destruct (get_files_and_folders d0) as [files folders] eqn:E0.
  assert (Hfiles0 : files = (get_files_and_folders d0).1) by by rewrite E0.
  assert (Hdirs0 : folders = (get_files_and_folders d0).2) by by rewrite E0.
  clear E0. destruct (create_folders d0 fn rules) as [dA [e|]] eqn:EA.
  { left. by exists e. }
  right. simpl.
  destruct (create_folders_spec fn rules d0 dA EA Hnd)
    as (HwfA & (extra & HdirsA & Hextra) & HfA & HextA).
  destruct (move_files_spec files dA [] HwfA) as (HwfB & HdirsB & HmonoB & HfB).
  { intros f Hf [items Hitems]. subst files.
    apply files_are_files in Hf; [|done]. apply HextA in Hf. congruence. }
  destruct (move_files denied files em rules (World dA [])) as [dB lgB] eqn:EB.
  simpl in *. unfold move_folders_based_on_content.
  destruct (move_folders_loop_spec folders [] extra dB lgB HwfB)
    as (Hwf1 & Hq1 & Hmono1 & Hf1).
  { simpl. by rewrite HdirsB, HdirsA, Hdirs0. }
  { intros x Hx. left. by apply Hextra. }
  destruct (move_folders_loop downloads_name denied folders cats em
              (World dB lgB)) as [w' r] eqn:EC.
  simpl in *.
  assert (Hgoal : well_formed cats (downloads w')
    ∧ (∀ f, Dict.get f (downloads w') = Some File →
            stuck_file denied rules em (downloads w') f)
    ∧ quiet_folders downloads_name denied cats em
        (get_files_and_folders (downloads w')).2 (downloads w')).
  { split; [done|]. split; [|done]. intros f Hf.
    apply Hmono1. destruct (HfB f (Hf1 f Hf)) as [HfA' Hst]. apply Hst.
    subst files. by apply files_get, HfA. }
  by destruct r.
Qed.

Lemma main_quiet (d1 : listing) :
  well_formed cats d1 →
  (∀ f, Dict.get f d1 = Some File → stuck_file denied rules em d1 f) →
  quiet_folders downloads_name denied cats em (get_files_and_folders d1).2 d1 →
  downloads (main downloads_name denied fn rules d1) = d1
  ∧ Forall (fun m => is_move m = false)
      (log (main downloads_name denied fn rules d1)).
Proof.
  intros Hwf Hfiles Hq. unfold main.
  destruct (get_files_and_folders d1) as [files folders] eqn:E1.
  assert (Hfiles1 : files = (get_files_and_folders d1).1) by by rewrite E1.
  simpl in Hq. clear E1. rewrite create_folders_id by done.
  destruct (move_files_quiet files d1 []) as (ms & -> & Hms).
  { intros f Hf. apply Hfiles. subst files.
    apply files_are_files; [apply Hwf | done]. }
  unfold move_folders_based_on_content.
  destruct (Hq ([] ++ ms)) as (ms' & r & -> & Hms').
  destruct r; simpl; (split; [done|]);
    repeat (apply Forall_app; split); try done; by repeat constructor.
Qed.

Lemma main_raised (d d' : listing) (e : exn) :
  create_folders d fn rules = (d', Some e) →
  main downloads_name denied fn rules d = World d' [Error_occurred e].
Proof.
  intros He. unfold main. destruct (get_files_and_folders d). by rewrite He.
Qed.

Lemma main_twice (d0 : listing) :
  NoDup (Dict.keys d0) →
  downloads (main downloads_name denied fn rules
               (downloads (main downloads_name denied fn rules d0)))
  = downloads (main downloads_name denied fn rules d0)
  ∧ Forall (fun m => is_move m = false)
      (log (main downloads_name denied fn rules
              (downloads (main downloads_name denied fn rules d0)))).
Proof.
  intros Hnd.
  destruct (main_spec d0 Hnd) as [[e He]|(Hwf & Hfiles & Hq)].
  - apply create_folders_idem in He. rewrite (main_raised _ _ _ He). simpl.
    split; [done|]. by repeat constructor.
  - by apply main_quiet.
Qed.

End second_run.

(** C6, as the specification words it, fails: a file that collides with an
    entry of its category folder is left in the working directory by the
    first run, and the second run reports the collision again, with a
    warning. *)
Lemma C6_counterexample :
  ¬ (∀ d0 : listing,
       NoDup (Dict.keys d0) →
       let w1 := main "Downloads" (fun _ => false) folder_names
                   filename_sorting_rules d0 in
       let w2 := main "Downloads" (fun _ => false) folder_names
                   filename_sorting_rules (downloads w1) in
       downloads w2 = downloads w1
       ∧ Forall (fun m => level_of m = INFO) (log w2)).
Proof.
  intros H.
  destruct (H [("a.mp3", File); ("Audio", Dir [("a.mp3", File)])]) as [_ Hlog].
  { apply (bool_decide_unpack _). vm_compute. exact I. }
  vm_compute in Hlog. apply Forall_cons in Hlog as [Hwarning _].
  discriminate.
Qed.

(** C6, amended. With ["Others"] among the categories of the rule tables, a
    second run on the directory the first run left moves nothing: it leaves
    the directory as it is and logs no move. *)
Theorem C6_second_run_moves_nothing (downloads_name : string)
    (denied : string → bool) (fn : rule_table) (rules : filename_rules)
    (d0 : listing)
    (HOthers : "Others" ∈ Dict.keys fn ∨ "Others" ∈ Dict.keys rules)
    (Hnames : NoDup (Dict.keys d0)) :
  downloads (main downloads_name denied fn rules
               (downloads (main downloads_name denied fn rules d0)))
  = downloads (main downloads_name denied fn rules d0)
  ∧ Forall (fun m => is_move m = false)
      (log (main downloads_name denied fn rules
              (downloads (main downloads_name denied fn rules d0)))).
Proof.
  apply main_twice; [|done]. by apply elem_of_combine_categories.
Qed.

(** C6 at a directory with a colliding file, a file whose rename is refused
    and a folder to reclassify. *)
Lemma C6_witness :
  downloads (main "Downloads" (fun name => bool_decide (name = "locked.pdf"))
               folder_names filename_sorting_rules
               (downloads
                  (main "Downloads" (fun name => bool_decide (name = "locked.pdf"))
                     folder_names filename_sorting_rules
                     [("IMG_1.jpg", File); ("a.mp3", File); ("locked.pdf", File);
                      ("Audio", Dir [("a.mp3", File)]);
                      ("trip", Dir [("x.mp3", File)])])))
  = downloads (main "Downloads" (fun name => bool_decide (name = "locked.pdf"))
                 folder_names filename_sorting_rules
                 [("IMG_1.jpg", File); ("a.mp3", File); ("locked.pdf", File);
                  ("Audio", Dir [("a.mp3", File)]);
                  ("trip", Dir [("x.mp3", File)])])
  ∧ Forall (fun m => is_move m = false)
      (log (main "Downloads" (fun name => bool_decide (name = "locked.pdf"))
              folder_names filename_sorting_rules
              (downloads
                 (main "Downloads"
                    (fun name => bool_decide (name = "locked.pdf"))
                    folder_names filename_sorting_rules
                    [("IMG_1.jpg", File); ("a.mp3", File); ("locked.pdf", File);
                     ("Audio", Dir [("a.mp3", File)]);
                     ("trip", Dir [("x.mp3", File)])])))).
Proof.
  apply (C6_second_run_moves_nothing "Downloads"
           (fun name => bool_decide (name = "locked.pdf"))
           folder_names filename_sorting_rules
           [("IMG_1.jpg", File); ("a.mp3", File); ("locked.pdf", File);
            ("Audio", Dir [("a.mp3", File)]); ("trip", Dir [("x.mp3", File)])]).
  - left. apply (bool_decide_unpack _). vm_compute. exact I.
  - apply (bool_decide_unpack _). vm_compute. exact I.
Defined.

(** Without ["Others"] among the categories a second run can move a file: the
    first run moves the folder [Others] away and makes a new one. *)
Example second_run_moves_without_Others :
  log (main "Downloads" (fun _ => false) [("Audio", ["mp3"])] []
         (downloads
            (main "Downloads" (fun _ => false) [("Audio", ["mp3"])] []
               [("y.xyz", File);
                ("Others", Dir [("a.mp3", File); ("y.xyz", Dir [])]);
                ("E", Dir [])])))
  = [Moved "y.xyz" "Others"; Skipping_category "Audio";
     Error_occurred (KeyError "Others")].
Proof. vm_compute. reflexivity. Qed.

(** * Further properties of the code *)

(** ** The extension index *)

Lemma insert_each_lookup (exts : list string) (folder : string)
    (m : gmap string string) (e : string) :
  fold_left (fun m ext => <[ext := folder]> m) exts m !! e
  = if decide (e ∈ exts) then Some folder else m !! e.
Proof.
  revert m. induction exts as [|x exts IH]; intros m; cbn [fold_left].
  - rewrite decide_False; [done | apply not_elem_of_nil].
  - rewrite IH. destruct (decide (e ∈ exts)) as [Hin|Hin].
    + rewrite decide_True; [done | by right].
    + destruct (decide (e = x)) as [->|Hne].
      * rewrite lookup_insert_eq, decide_True; [done | by left].
      * rewrite lookup_insert_ne by done.
        rewrite decide_False; [done|]. rewrite not_elem_of_cons. done.
Qed.

Lemma index_fold_notin (l : rule_table) (m : gmap string string) (e : string) :
  (∀ r, r ∈ l → e ∉ r.2) →
  fold_left
    (fun extension_map '(folder, extensions) =>
       fold_left (fun m extension => <[extension := folder]> m)
         extensions extension_map) l m !! e
  = m !! e.
Proof.
  revert m. induction l as [|[folder exts] l IH]; intros m Hl; [done|].
  simpl. rewrite IH by (intros r Hr; apply Hl; by right).
  rewrite insert_each_lookup, decide_False; [done|].
  apply (Hl (folder, exts)). by left.
Qed.

(** X1. [map_extensions_to_folder] inverts the rule table with the last
    write winning: an extension listed under several categories is mapped to
    the last of them in the order of the table, an extension listed nowhere
    is not in the index, and every value of the index is a key of the
    table. *)
Theorem X1_map_extensions_to_folder_last_write_wins (fn : rule_table)
    (e : string) :
  (∀ before folder exts after,
     fn = before ++ (folder, exts) :: after →
     e ∈ exts → (∀ r, r ∈ after → e ∉ r.2) →
     map_extensions_to_folder fn !! e = Some folder)
  ∧ ((∀ r, r ∈ fn → e ∉ r.2) → map_extensions_to_folder fn !! e = None)
  ∧ (∀ c, map_extensions_to_folder fn !! e = Some c → c ∈ Dict.keys fn).
Proof.
  split; [|split].
  - intros before folder exts after -> Hin Hafter.
    unfold map_extensions_to_folder. rewrite fold_left_app. simpl.
    rewrite index_fold_notin by done.
    by rewrite insert_each_lookup, decide_True.
  - intros Hnone. unfold map_extensions_to_folder.
    by rewrite index_fold_notin.
  - intros c. apply map_extensions_to_folder_values.
Qed.

(** X1 at an extension listed under two categories. *)
Lemma X1_witness :
  map_extensions_to_folder
    [("Audio", ["mp3"; "ogg"]); ("Videos", ["ogg"; "mp4"]); ("Data", ["csv"])]
  !! "ogg" = Some "Videos".
Proof.
  apply (proj1 (X1_map_extensions_to_folder_last_write_wins
                  [("Audio", ["mp3"; "ogg"]); ("Videos", ["ogg"; "mp4"]);
                   ("Data", ["csv"])] "ogg")
           [("Audio", ["mp3"; "ogg"])] "Videos" ["ogg"; "mp4"]
           [("Data", ["csv"])]).
  - reflexivity.
  - by left.
  - intros r ->%list_elem_of_singleton. simpl.
    apply (bool_decide_unpack _). vm_compute. exact I.
Defined.

(** ** Enumerating the working directory *)


(** ** Creating the category folders, again *)

Lemma mkdir_each_raise (l : list string) (d d' : listing) (e : exn) :
  mkdir_each l d = (d', Some e) →
  ∃ c, c ∈ l ∧ e = FileExistsError c ∧ Dict.get c d = Some File.
Proof.
  revert d. induction l as [|x l IH]; intros d H; simpl in H; [done|].
  destruct (mkdir_exist_ok x d) as [d1|e1] eqn:E.
  - destruct (IH d1 H) as (c & Hc & -> & Hfile). exists c.
    split; [by right|]. split; [done|].
    apply mkdir_exist_ok_spec in E as [[-> _]|[-> Hx]]; [done|].
    rewrite get_snoc_None in Hfile by done. by destruct (decide (c = x)).
  - injection H as <- <-. exists x. split; [by left|].
    unfold mkdir_exist_ok in E.
    destruct (Dict.get x d) as [[|ch]|]; by simplify_eq.
Qed.

Lemma create_folders_extends (d : listing) (fn : rule_table)
    (rules : filename_rules) :
  extends d (create_folders d fn rules).1.
Proof.
  unfold create_folders.
  destruct (mkdir_each (Dict.keys fn) d) as [d1 r1] eqn:E1.
  destruct (mkdir_each_spec _ _ _ _ E1) as (Hext1 & _).
  destruct r1 as [e|]; [done|].
  destruct (mkdir_each (Dict.keys rules) d1) as [d2 r2] eqn:E2.
  destruct (mkdir_each_spec _ _ _ _ E2) as (Hext2 & _).
  by eapply extends_trans.
Qed.

Lemma create_folders_raise (d d' : listing) (fn : rule_table)
    (rules : filename_rules) (e : exn) :
  create_folders d fn rules = (d', Some e) →
  ∃ c, (c ∈ Dict.keys fn ∨ c ∈ Dict.keys rules)
       ∧ e = FileExistsError c ∧ Dict.get c d = Some File.
Proof.
  unfold create_folders. intros H.
  destruct (mkdir_each (Dict.keys fn) d) as [d1 [e1|]] eqn:E1.
  - injection H as <- <-.
    destruct (mkdir_each_raise _ _ _ _ E1) as (c & Hc & -> & Hfile).
    exists c. auto.
  - destruct (mkdir_each_spec _ _ _ _ E1) as (_ & _ & _ & _ & Hf1).
    destruct (mkdir_each_raise _ _ _ _ H) as (c & Hc & -> & Hfile).
    exists c. auto.
Qed.

Lemma create_folders_None (d d' : listing) (fn : rule_table)
    (rules : filename_rules) (c : string) :
  create_folders d fn rules = (d', None) →
  c ∈ Dict.keys fn ∨ c ∈ Dict.keys rules → Dict.get c d ≠ Some File.
Proof.
  unfold create_folders. intros H Hc Hfile.
  destruct (mkdir_each (Dict.keys fn) d) as [d1 [e1|]] eqn:E1; [done|].
  destruct (mkdir_each_spec _ _ _ _ E1) as (Hext1 & _ & Hall1 & _).
  destruct (mkdir_each_spec _ _ _ _ H) as (Hext2 & _ & Hall2 & _).
  assert (Hfolder : is_folder_in c d').
  { destruct Hc as [Hc|Hc]; [|by apply Hall2].
    apply (extends_folder _ _ _ Hext2). by apply Hall1. }
  apply Hext1, Hext2 in Hfile. destruct Hfolder as [ch Hch]. congruence.
Qed.

(** X3. [create_folders] only adds folders: every entry of the working
    directory is kept as it is and distinct names stay distinct.  It raises
    exactly when a category name is taken by a file, with [FileExistsError]
    for such a name; otherwise every category of both tables is a folder of
    the working directory afterwards. *)
Theorem X3_create_folders (d : listing) (fn : rule_table)
    (rules : filename_rules) :
  extends d (create_folders d fn rules).1
  ∧ (NoDup (Dict.keys d) → NoDup (Dict.keys (create_folders d fn rules).1))
  ∧ match (create_folders d fn rules).2 with
    | None =>
        (∀ c, c ∈ Dict.keys fn ∨ c ∈ Dict.keys rules →
              Dict.get c d ≠ Some File
              ∧ is_folder_in c (create_folders d fn rules).1)
    | Some e =>
        ∃ c, (c ∈ Dict.keys fn ∨ c ∈ Dict.keys rules)
             ∧ e = FileExistsError c ∧ Dict.get c d = Some File
    end.
Proof.
  unfold create_folders.
  destruct (mkdir_each (Dict.keys fn) d) as [d1 r1] eqn:E1.
  destruct (mkdir_each_spec _ _ _ _ E1) as (Hext1 & Hnd1 & Hall1 & _ & Hf1).
  destruct r1 as [e|].
  - simpl. split; [done|]. split; [done|].
    destruct (mkdir_each_raise _ _ _ _ E1) as (c & Hc & -> & Hfile).
    exists c. auto.
  - destruct (mkdir_each (Dict.keys rules) d1) as [d2 r2] eqn:E2.
    destruct (mkdir_each_spec _ _ _ _ E2) as (Hext2 & Hnd2 & Hall2 & _ & Hf2).
    simpl. split; [by eapply extends_trans|]. split; [auto|].
    destruct r2 as [e|].
    + destruct (mkdir_each_raise _ _ _ _ E2) as (c & Hc & -> & Hfile).
      exists c. auto.
    + intros c Hc.
      assert (Hfolder : is_folder_in c d2).
      { destruct Hc as [Hc|Hc]; [|by apply Hall2].
        apply (extends_folder _ _ _ Hext2). by apply Hall1. }
      split; [|done]. intros Hfile.
      apply Hext1, Hext2 in Hfile. destruct Hfolder as [ch Hch]. congruence.
Qed.

(** X4. [create_folders] is idempotent: on the directory it left it changes
    nothing and ends the same way, with the same exception if it raised. *)
Theorem X4_create_folders_idempotent (d : listing) (fn : rule_table)
    (rules : filename_rules) :
  create_folders (create_folders d fn rules).1 fn rules
  = ((create_folders d fn rules).1, (create_folders d fn rules).2).
Proof.
  destruct (create_folders d fn rules) as [d' r] eqn:E.
  simpl. by apply (create_folders_idem fn rules d).
Qed.

(** ** Upper-case keys of the index *)

Lemma lower_char_idem (a : ascii) :
  Str.lower_char (Str.lower_char a) = Str.lower_char a.
Proof. destruct a as [[] [] [] [] [] [] [] []]; reflexivity. Qed.

Lemma lower_idem (s : string) : Str.lower (Str.lower s) = Str.lower s.
Proof.
  induction s as [|a s IH]; [done|]. simpl. by rewrite lower_char_idem, IH.
Qed.

(** X5. The key under which a file is looked up is lowercased, so an entry of
    the index whose key has an upper-case letter, such as the [NONE] listed
    under [Others] in the program's table, is never matched: neither
    classifier is affected by it. *)
Theorem X5_upper_case_key_never_matched (key : string)
    (Hupper : Str.lower key ≠ key) :
  (∀ file_name, file_extension file_name ≠ key)
  ∧ (∀ file_name rules (extension_map : gmap string string) folder default_folder,
       determine_target_folder file_name rules (<[key := folder]> extension_map)
         default_folder
       = determine_target_folder file_name rules extension_map default_folder)
  ∧ (∀ items (extension_map : gmap string string) folder all_categories,
       classify_folder_by_content items (<[key := folder]> extension_map)
         all_categories
       = classify_folder_by_content items extension_map all_categories).
Proof.
  assert (Hne : ∀ file_name, file_extension file_name ≠ key).
  { intros file_name Heq. apply Hupper. rewrite <- Heq.
    unfold file_extension. apply lower_idem. }
  split; [done|]. split.
  - intros file_name rules em folder dflt. unfold determine_target_folder.
    rewrite lookup_insert_ne; [done|]. intros Heq. by apply (Hne file_name).
  - intros items em folder cats. unfold classify_folder_by_content.
    rewrite (count_items_ext (<[key := folder]> em) em); [done|].
    intros file_name. rewrite lookup_insert_ne; [done|].
    intros Heq. by apply (Hne file_name).
Qed.

(** X5 at the key [NONE]: a file [README.NONE] is not an [Others] file by its
    extension, it falls to the default. *)
Lemma X5_witness :
  file_extension "README.NONE" = "none"
  ∧ determine_target_folder "README.NONE" []
      (<["NONE" := "Others"]> (∅ : gmap string string)) "Unsorted"
    = "Unsorted".
Proof.
  destruct (X5_upper_case_key_never_matched "NONE") as (_ & Hfile & _).
  { vm_compute. discriminate. }
  split; [reflexivity|]. rewrite Hfile. reflexivity.
Defined.

(** ** What the folder classifier looks at *)

Lemma count_items_files (em : gmap string string) (items : listing)
    (acc : list (string * nat) * nat) :
  count_items em (filter (fun item => is_file item.2 = true) items) acc
  = count_items em items acc.
Proof.
  revert acc. induction items as [|item items IH]; intros acc; [done|].
  rewrite filter_cons. destruct (decide (is_file item.2 = true)) as [Hf|Hf].
  - simpl. destruct (count_item em acc item); [apply IH | done].
  - rewrite IH. simpl. unfold count_item. destruct acc as [fc n].
    apply not_true_is_false in Hf. by rewrite Hf.
Qed.

(** X6. [classify_folder_by_content] is not recursive: the subfolders of the
    folder, and what they hold, do not influence the result, which is that of
    the folder's direct child files alone. *)
Theorem X6_classify_folder_ignores_subfolders (items : listing)
    (extension_map : gmap string string) (all_categories : list string) :
  classify_folder_by_content
    (filter (fun item => is_file item.2 = true) items)
    extension_map all_categories
  = classify_folder_by_content items extension_map all_categories.
Proof.
  unfold classify_folder_by_content. by rewrite count_items_files.
Qed.

Lemma bucket_count_Permutation (em : gmap string string) (c : string)
    (items items' : listing) :
  items ≡ₚ items' → bucket_count em c items = bucket_count em c items'.
Proof. intros Hp. unfold bucket_count. by rewrite Hp. Qed.

Lemma spec_total_files_Permutation (items items' : listing) :
  items ≡ₚ items' → spec_total_files items = spec_total_files items'.
Proof. intros Hp. unfold spec_total_files. by rewrite Hp. Qed.

(** X7. With ["Others"] among the categories, the result of
    [classify_folder_by_content] depends neither on the order in which
    [iterdir] yields the children of the folder nor on the set of categories
    and the order in which it is iterated. *)
Theorem X7_classify_folder_order_independent (items items' : listing)
    (extension_map : gmap string string) (cats cats' : list string)
    (Hitems : items ≡ₚ items')
    (HOthers : "Others" ∈ cats) (HOthers' : "Others" ∈ cats') :
  classify_folder_by_content items extension_map cats
  = classify_folder_by_content items' extension_map cats'.
Proof.
  destruct (classify_folder_by_content_Ok items extension_map cats HOthers)
    as (c & -> & Hc & Huniq).
  destruct (classify_folder_by_content_Ok items' extension_map cats' HOthers')
    as (c' & -> & Hc' & Huniq').
  f_equal.
  assert (Hmaj : ∀ k, bucket_count extension_map k items
                      = bucket_count extension_map k items')
    by (intros k; by apply bucket_count_Permutation).
  pose proof (spec_total_files_Permutation _ _ Hitems) as Htot.
  destruct Hc as [->|Hc].
  - destruct Hc' as [->|Hc']; [done|]. apply Huniq. by rewrite Htot, Hmaj.
  - symmetry. apply Huniq'. by rewrite <- Htot, <- Hmaj.
Qed.

(** X7 at a folder listed in two orders, with two sets of categories. *)
Lemma X7_witness :
  classify_folder_by_content
    [("a.mp3", File); ("b.pdf", File); ("c.mp3", File)]
    (map_extensions_to_folder folder_names) ["Audio"; "Others"]
  = classify_folder_by_content
      [("b.pdf", File); ("c.mp3", File); ("a.mp3", File)]
      (map_extensions_to_folder folder_names) ["Others"; "Photos"; "Audio"].
Proof.
  apply X7_classify_folder_order_independent.
  - apply (Permutation_cons_append [("b.pdf", File); ("c.mp3", File)]).
  - apply (bool_decide_unpack _). vm_compute. exact I.
  - apply (bool_decide_unpack _). vm_compute. exact I.
Defined.

Lemma bucket_count_pos_elem (em : gmap string string) (c : string)
    (items : listing) :
  (0 < bucket_count em c items)%nat →
  ∃ item, item ∈ items ∧ is_file item.2 = true ∧ bucket em item = c.
Proof.
  induction items as [|item items IH]; [unfold bucket_count; simpl; lia|].
  rewrite bucket_count_cons. unfold counted.
  destruct (decide _) as [[Hf Hb]|_].
  - intros _. exists item. split; [by left | done].
  - intros H. destruct (IH H) as (i & Hin & Hi). exists i. split; [by right|done].
Qed.

(** X8. With ["Others"] among the categories, what
    [classify_folder_by_content] returns is ["Others"] or the category to
    which the extension index maps a direct child file of the folder: the
    filename rules play no part, so a folder is never classified into a
    category that only the filename rules know. *)
Theorem X8_classify_folder_result_is_an_index_value (items : listing)
    (extension_map : gmap string string) (all_categories : list string)
    (c : string)
    (HOthers : "Others" ∈ all_categories)
    (Hresult : classify_folder_by_content items extension_map all_categories
               = Ok c) :
  c = "Others"
  ∨ ∃ item, item ∈ items ∧ is_file item.2 = true
            ∧ extension_map !! file_extension item.1 = Some c.
Proof.
  destruct (classify_folder_by_content_Ok items extension_map all_categories
              HOthers) as (c' & E & Hc' & _).
  rewrite Hresult in E. injection E as <-.
  destruct Hc' as [|Hmaj]; [by left|].
  destruct (bucket_count_pos_elem extension_map c items)
    as (item & Hin & Hf & Hb); [lia|].
  destruct (decide (c = "Others")) as [|Hne]; [by left|]. right.
  exists item. split; [done|]. split; [done|].
  unfold bucket in Hb.
  destruct (extension_map !! file_extension item.1) as [c0|]; simpl in Hb;
    [|done].
  destruct (decide (c0 = "")); simpl in Hb; congruence.
Qed.

(** X8 at a folder of camera pictures: its files go to [Photos] one by one,
    the folder is classified by their extension. *)
Lemma X8_witness :
  "Images" = "Others"
  ∨ ∃ item, item ∈ [("IMG_1.jpg", File); ("IMG_2.jpg", File)]
            ∧ is_file item.2 = true
            ∧ map_extensions_to_folder folder_names !! file_extension item.1
              = Some "Images".
Proof.
  apply (X8_classify_folder_result_is_an_index_value
           [("IMG_1.jpg", File); ("IMG_2.jpg", File)]
           (map_extensions_to_folder folder_names)
           (combine_categories folder_names filename_sorting_rules) "Images").
  - apply (bool_decide_unpack _). vm_compute. exact I.
  - vm_compute. reflexivity.
Defined.

(** ** The file loop *)

(** X9. Once the category folders exist and ["Others"] is one of them, a file
    of the working directory whose name is free in its target folder and
    whose rename is not refused is moved: [move_file] logs one [Moved] line,
    the file is found under its target folder and no longer in the working
    directory, and no other entry of the working directory changes. *)
Theorem X9_move_file_moves (denied : string → bool) (fn : rule_table)
    (rules : filename_rules) (d : listing) (f : string) (lg : list message)
    (HOthers : "Others" ∈ Dict.keys fn ∨ "Others" ∈ Dict.keys rules)
    (Hready : well_formed (combine_categories fn rules) d)
    (Hfile : Dict.get f d = Some File)
    (Hfree : exists_in
               (determine_target_folder f rules (map_extensions_to_folder fn)
                  "Others") f d = false)
    (Hallowed : denied f = false) :
  let c := determine_target_folder f rules (map_extensions_to_folder fn)
             "Others" in
  let w' := move_file denied (map_extensions_to_folder fn) rules (World d lg) f in
  log w' = lg ++ [Moved f c]
  ∧ Dict.get f (downloads w') = None
  ∧ exists_in c f (downloads w') = true
  ∧ ∀ k, k ≠ f → k ≠ c → Dict.get k (downloads w') = Dict.get k d.
Proof.
  intros c w'. subst w' c.
  set (c := determine_target_folder f rules (map_extensions_to_folder fn)
              "Others") in *.
  destruct Hready as [Hnd Hcats].
  assert (Hc : c ∈ combine_categories fn rules).
  { apply determine_target_folder_category.
    by apply elem_of_combine_categories. }
  destruct (Hcats c Hc) as [ch Hch].
  assert (Hne : f ≠ c) by (intros Heq; rewrite Heq in Hfile; congruence).
  unfold move_file. fold c. simpl. rewrite Hfree. simpl.
  unfold rename_into. rewrite Hfile, Hallowed, decide_False, Hch by done.
  unfold exists_in in Hfree. rewrite Hch in Hfree.
  apply bool_decide_eq_false in Hfree. rewrite decide_False by done. simpl.
  split; [done|]. split; [|split].
  - rewrite get_put_ne by done. apply get_remove_eq.
  - unfold exists_in. rewrite get_put_eq. apply bool_decide_eq_true.
    unfold Dict.keys. rewrite fmap_app, elem_of_app. right. by left.
  - intros k Hkf Hkc. rewrite get_put_ne by done. by apply get_remove_ne.
Qed.

(** X9 at a picture in a working directory whose category folders exist. *)
Lemma X9_witness :
  let d := (create_folders [("IMG_1.png", File); ("Photos", Dir [])]
              folder_names filename_sorting_rules).1 in
  let w' := move_file (fun _ => false) (map_extensions_to_folder folder_names)
              filename_sorting_rules (World d []) "IMG_1.png" in
  log w' = [] ++ [Moved "IMG_1.png" "Photos"]
  ∧ Dict.get "IMG_1.png" (downloads w') = None
  ∧ exists_in "Photos" "IMG_1.png" (downloads w') = true
  ∧ ∀ k, k ≠ "IMG_1.png" → k ≠ "Photos" →
         Dict.get k (downloads w') = Dict.get k d.
Proof.
  intros d.
  apply (X9_move_file_moves (fun _ => false) folder_names
           filename_sorting_rules d "IMG_1.png" []).
  - left. apply (bool_decide_unpack _). vm_compute. exact I.
  - apply (create_folders_spec folder_names filename_sorting_rules
             [("IMG_1.png", File); ("Photos", Dir [])]).
    + vm_compute. reflexivity.
    + apply (bool_decide_unpack _). vm_compute. exact I.
  - vm_compute. reflexivity.
  - vm_compute. reflexivity.
  - reflexivity.
Defined.

Lemma move_file_log (denied : string → bool) (em : gmap string string)
    (rules : filename_rules) (w : world) (f : string) :
  ∃ m, log (move_file denied em rules w f) = log w ++ [m]
       ∧ (m = Moved f (determine_target_folder f rules em "Others")
          ∨ (∃ e, m = Could_not_move f
                        (determine_target_folder f rules em "Others") e)
          ∨ m = File_already_exists f
                  (determine_target_folder f rules em "Others")).
Proof.
  unfold move_file. destruct (negb _).
  - destruct (rename_into _ _ _ _) as [d'|e]; eexists; (split; [done|]);
      [by left | right; left; by eexists].
  - eexists. split; [done|]. by do 2 right.
Qed.


(** ** The folder loop *)

(** X11. Once the category folders exist and ["Others"] is one of them, a
    folder that is not a category, whose classification is not the name of
    the working directory, whose name is free in the folder of its
    classification and whose rename is not refused is moved there as a whole:
    [move_folder] logs one [Moved_folder] line, the folder is found under its
    category with the children it had, it is no longer in the working
    directory, and no other entry of the working directory changes. *)
Theorem X11_move_folder_moves (downloads_name : string)
    (denied : string → bool) (fn : rule_table) (rules : filename_rules)
    (d : listing) (x : string) (items : listing) (c : string)
    (lg : list message)
    (HOthers : "Others" ∈ Dict.keys fn ∨ "Others" ∈ Dict.keys rules)
    (Hready : well_formed (combine_categories fn rules) d)
    (Hnot_category : x ∉ combine_categories fn rules)
    (Hfolder : Dict.get x d = Some (Dir items))
    (Hclass : classify_folder_by_content items (map_extensions_to_folder fn)
                (combine_categories fn rules) = Ok c)
    (Hparent : downloads_name ≠ c)
    (Hfree : exists_in c x d = false)
    (Hallowed : denied x = false) :
  ∃ d',
    move_folder downloads_name denied (combine_categories fn rules)
      (map_extensions_to_folder fn) (World d lg) x
    = (World d' (lg ++ [Moved_folder x c]), None)
    ∧ Dict.get x d' = None
    ∧ (∃ children, Dict.get c d' = Some (Dir children)
                   ∧ (x, Dir items) ∈ children)
    ∧ ∀ k, k ≠ x → k ≠ c → Dict.get k d' = Dict.get k d.
Proof.
  destruct Hready as [Hnd Hcats].
  assert (HO : "Others" ∈ combine_categories fn rules)
    by by apply elem_of_combine_categories.
  pose proof (classify_folder_by_content_category fn rules HO items c Hclass)
    as Hc.
  destruct (Hcats c Hc) as [ch Hch].
  assert (Hne : x ≠ c) by (by intros ->).
  assert (Hxch : x ∉ Dict.keys ch).
  { unfold exists_in in Hfree. rewrite Hch in Hfree.
    by apply bool_decide_eq_false in Hfree. }
  eexists. split; [|split; [|split]].
  - unfold move_folder, iterdir. simpl.
    rewrite decide_False, Hfolder, Hclass, decide_True by done.
    rewrite mkdir_exist_ok_id by (by exists ch). rewrite Hfree. simpl.
    unfold rename_into. rewrite Hfolder, Hallowed, decide_False, Hch by done.
    by rewrite decide_False.
  - rewrite get_put_ne by done. apply get_remove_eq.
  - eexists. split; [apply get_put_eq|]. rewrite elem_of_app. right. by left.
  - intros k Hkx Hkc. rewrite get_put_ne by done. by apply get_remove_ne.
Qed.

(** X11 at a folder of music next to a folder [Audio] that already holds a
    file. *)
Lemma X11_witness :
  let d := (create_folders
              [("trip", Dir [("x.mp3", File); ("notes", Dir [])]);
               ("Audio", Dir [("old.mp3", File)])]
              folder_names filename_sorting_rules).1 in
  ∃ d',
    move_folder "Downloads" (fun _ => false)
      (combine_categories folder_names filename_sorting_rules)
      (map_extensions_to_folder folder_names) (World d []) "trip"
    = (World d' ([] ++ [Moved_folder "trip" "Audio"]), None)
    ∧ Dict.get "trip" d' = None
    ∧ (∃ children,
         Dict.get "Audio" d' = Some (Dir children)
         ∧ ("trip", Dir [("x.mp3", File); ("notes", Dir [])]) ∈ children)
    ∧ ∀ k, k ≠ "trip" → k ≠ "Audio" → Dict.get k d' = Dict.get k d.
Proof.
  intros d.
  apply (X11_move_folder_moves "Downloads" (fun _ => false) folder_names
           filename_sorting_rules d "trip").
  - left. apply (bool_decide_unpack _). vm_compute. exact I.
  - apply (create_folders_spec folder_names filename_sorting_rules
             [("trip", Dir [("x.mp3", File); ("notes", Dir [])]);
              ("Audio", Dir [("old.mp3", File)])]).
    + vm_compute. reflexivity.
    + apply (bool_decide_unpack _). vm_compute. exact I.
  - apply (bool_decide_unpack _). vm_compute. exact I.
  - vm_compute. reflexivity.
  - vm_compute. reflexivity.
  - done.
  - vm_compute. reflexivity.
  - reflexivity.
Defined.

(** ** Nothing is lost *)

Lemma kept_refl (targets : list string) (d : listing) : kept targets d d.
Proof.
  split; [|split].
  - intros x entry _ H. by left.
  - intros c ch _ H. exists []. by rewrite app_nil_r.
  - done.
Qed.

Lemma kept_trans (targets : list string) (d1 d2 d3 : listing) :
  kept targets d1 d2 → kept targets d2 d3 → kept targets d1 d3.
Proof.
  intros (H1 & H1' & H1'') (H2 & H2' & H2''). split; [|split].
  - intros x entry Hx Hget. destruct (H1 x entry Hx Hget) as [H|(c & ch & Hc & Hch & Hin)].
    + by apply H2.
    + right. destruct (H2' c ch Hc Hch) as [more Hmore].
      exists c, (ch ++ more). split; [done|]. split; [done|].
      rewrite elem_of_app. by left.
  - intros c ch Hc Hch. destruct (H1' c ch Hc Hch) as [more1 Hm1].
    destruct (H2' c _ Hc Hm1) as [more2 Hm2].
    exists (more1 ++ more2). by rewrite app_assoc.
  - intros c Hc Hfile. by apply H2'', H1''.
Qed.

Lemma extends_kept (targets : list string) (d d' : listing) :
  extends d d' → kept targets d d'.
Proof.
  intros Hext. split; [|split].
  - intros x entry _ H. left. by apply Hext.
  - intros c ch _ H. exists []. rewrite app_nil_r. by apply Hext.
  - intros c _ H. by apply Hext.
Qed.

Lemma moved_kept (targets : list string) (name : string) (entry : node)
    (c : string) (ch d : listing) :
  name ∉ targets → c ∈ targets →
  Dict.get name d = Some entry → Dict.get c d = Some (Dir ch) →
  kept targets d
    (Dict.put c (Dir (ch ++ [(name, entry)])) (Dict.remove name d)).
Proof.
  intros Hname Hc Hentry Hch. split; [|split].
  - intros x e Hx Hget. rewrite moved_get.
    rewrite decide_False by (by intros ->).
    destruct (decide (x = name)) as [->|Hne]; [|by left].
    right. exists c, (ch ++ [(name, entry)]). split; [done|].
    rewrite moved_get, decide_True by done. split; [done|].
    rewrite elem_of_app. right. apply list_elem_of_singleton. congruence.
  - intros c' ch' Hc' Hch'. rewrite moved_get.
    destruct (decide (c' = c)) as [->|Hne].
    + exists [(name, entry)]. congruence.
    + rewrite decide_False by (by intros ->).
      exists []. by rewrite app_nil_r.
  - intros c' Hc' Hfile. rewrite moved_get.
    rewrite decide_False by (intros ->; congruence).
    by rewrite decide_False by (by intros ->).
Qed.

Section nothing_lost.
Variable downloads_name : string.
Variable denied : string → bool.
Variable fn : rule_table.
Variable rules : filename_rules.
Hypothesis HOthers : "Others" ∈ combine_categories fn rules.

Local Abbreviation cats := (combine_categories fn rules).
Local Abbreviation em := (map_extensions_to_folder fn).

Lemma move_files_kept (files : list string) (d : listing) (lg : list message) :
  well_formed cats d → (∀ f, f ∈ files → ¬ is_folder_in f d) →
  kept cats d (downloads (move_files denied files em rules (World d lg))).
Proof.
  unfold move_files. revert d lg.
  induction files as [|f files IH]; intros d lg Hwf Hnf; cbn [fold_left].
  - apply kept_refl.
  - assert (Hf : ¬ is_folder_in f d) by (apply Hnf; by left).
    destruct (move_file denied em rules (World d lg) f) as [d1 lg1] eqn:E.
    destruct (move_file_step denied fn rules HOthers d f lg Hwf Hf)
      as [[Hd _]|(c & ch & Hc & Hfile & Hch & Hd)];
      rewrite E in Hd; simpl in Hd; subst d1.
    + apply IH; [done|]. intros g Hg. apply Hnf. by right.
    + assert (Hfc : f ∉ cats).
      { intros Hin. apply Hf. by apply Hwf. }
      eapply kept_trans; [by apply moved_kept|].
      apply IH; [by eapply moved_well_formed|].
      intros g Hg [items Hitems]. rewrite moved_get in Hitems.
      destruct (decide (g = c)) as [->|Hgc].
      * apply (Hnf c); [by right|]. by exists ch.
      * destruct (decide (g = f)); [done|].
        apply (Hnf g); [by right|]. by exists items.
Qed.

Lemma move_folder_cases (d : listing) (x : string) (lg : list message) :
  well_formed cats d →
  downloads (move_folder downloads_name denied cats em (World d lg) x).1 = d
  ∨ ∃ items c ch,
      (x ∉ cats) ∧ c ∈ cats
      ∧ Dict.get x d = Some (Dir items) ∧ Dict.get c d = Some (Dir ch)
      ∧ move_folder downloads_name denied cats em (World d lg) x
        = (World (Dict.put c (Dir (ch ++ [(x, Dir items)])) (Dict.remove x d))
             (lg ++ [Moved_folder x c]), None).
Proof.
  intros Hwf. destruct (Dict.get x d) as [[|items]|] eqn:Hx.
  - left. unfold move_folder, iterdir. simpl.
    destruct (decide (x ∈ cats)); [done|]. by rewrite Hx.
  - destruct (move_folder_step downloads_name denied fn rules HOthers d x items
                Hwf Hx) as [Hs|[(e & He)|(Hxc & c & ch & Hc & Hch & Hmv)]].
    + left. destruct (stuck_folder_quiet downloads_name denied fn rules d x lg Hs)
        as (m & -> & _). done.
    + left. by rewrite He.
    + right. exists items, c, ch. auto.
  - left. unfold move_folder, iterdir. simpl.
    destruct (decide (x ∈ cats)); [done|]. by rewrite Hx.
Qed.

Lemma move_folders_loop_kept (l : list string) (d : listing)
    (lg : list message) :
  well_formed cats d →
  kept cats d
    (downloads (move_folders_loop downloads_name denied l cats em
                  (World d lg)).1).
Proof.
  revert d lg. induction l as [|x l IH]; intros d lg Hwf.
  - apply kept_refl.
  - cbn [move_folders_loop].
    destruct (move_folder_cases d x lg Hwf)
      as [Hd|(items & c & ch & Hxc & Hc & Hx & Hch & ->)].
    + destruct (move_folder downloads_name denied cats em (World d lg) x)
        as [[d1 lg1] [e|]]; simpl in Hd; subst d1.
      * apply kept_refl.
      * by apply IH.
    + eapply kept_trans; [by apply moved_kept|].
      apply IH. by eapply moved_well_formed.
Qed.

Lemma main_kept (d0 : listing) :
  NoDup (Dict.keys d0) →
  kept cats d0 (downloads (main downloads_name denied fn rules d0)).
Proof.
  intros Hnd. unfold main.
  destruct (get_files_and_folders d0) as [files folders] eqn:E0.
  assert (Hfiles0 : files = (get_files_and_folders d0).1) by by rewrite E0.
  clear E0. destruct (create_folders d0 fn rules) as [dA [e|]] eqn:EA.
  { simpl. apply extends_kept.
    pose proof (create_folders_extends d0 fn rules) as Hext.
    by rewrite EA in Hext. }
  destruct (create_folders_spec fn rules d0 dA EA Hnd)
    as (HwfA & _ & _ & HextA).
  assert (Hnf : ∀ f, f ∈ files → ¬ is_folder_in f dA).
  { intros f Hf [items Hitems]. subst files.
    apply files_are_files in Hf; [|done]. apply HextA in Hf. congruence. }
  pose proof (move_files_kept files dA [] HwfA Hnf) as HkB.
  destruct (move_files_spec denied fn rules HOthers files dA [] HwfA Hnf)
    as (HwfB & _).
  destruct (move_files denied files em rules (World dA [])) as [dB lgB] eqn:EB.
  simpl in HkB, HwfB. unfold move_folders_based_on_content.
  pose proof (move_folders_loop_kept folders dB lgB HwfB) as HkC.
  destruct (move_folders_loop downloads_name denied folders cats em
              (World dB lgB)) as [w' r].
  simpl in HkC.
  assert (Hgoal : kept cats d0 (downloads w')).
  { eapply kept_trans; [by apply extends_kept|].
    by eapply kept_trans. }
  by destruct r.
Qed.

End nothing_lost.

(** X12. With ["Others"] among the categories of the rule tables, a run
    loses and overwrites nothing.  An entry of the working directory that is
    not named like a category is, after the run, where it was or, unchanged,
    in a category folder; a category folder is where it was and holds the
    entries it had, in their order, possibly followed by new ones; a file
    named like a category is where it was. *)
Theorem X12_run_loses_nothing (downloads_name : string)
    (denied : string → bool) (fn : rule_table) (rules : filename_rules)
    (d0 : listing)
    (HOthers : "Others" ∈ Dict.keys fn ∨ "Others" ∈ Dict.keys rules)
    (Hnames : NoDup (Dict.keys d0)) :
  let d1 := downloads (main downloads_name denied fn rules d0) in
  (∀ x entry, x ∉ combine_categories fn rules → Dict.get x d0 = Some entry →
     Dict.get x d1 = Some entry
     ∨ ∃ c children, c ∈ combine_categories fn rules
                     ∧ Dict.get c d1 = Some (Dir children)
                     ∧ (x, entry) ∈ children)
  ∧ (∀ c children, c ∈ combine_categories fn rules →
       Dict.get c d0 = Some (Dir children) →
       ∃ more, Dict.get c d1 = Some (Dir (children ++ more)))
  ∧ (∀ c, c ∈ combine_categories fn rules → Dict.get c d0 = Some File →
       Dict.get c d1 = Some File).
Proof.
  apply main_kept; [|done]. by apply elem_of_combine_categories.
Qed.

(** X12 at a directory with a collision, a refused rename and a folder to
    reclassify. *)
Lemma X12_witness :
  kept (combine_categories folder_names filename_sorting_rules)
    [("IMG_1.jpg", File); ("a.mp3", File); ("locked.pdf", File);
     ("Audio", Dir [("a.mp3", File)]); ("trip", Dir [("x.mp3", File)])]
    (downloads
       (main "Downloads" (fun name => bool_decide (name = "locked.pdf"))
          folder_names filename_sorting_rules
          [("IMG_1.jpg", File); ("a.mp3", File); ("locked.pdf", File);
           ("Audio", Dir [("a.mp3", File)]); ("trip", Dir [("x.mp3", File)])])).
Proof.
  apply (X12_run_loses_nothing "Downloads"
           (fun name => bool_decide (name = "locked.pdf"))
           folder_names filename_sorting_rules).
  - left. apply (bool_decide_unpack _). vm_compute. exact I.
  - apply (bool_decide_unpack _). vm_compute. exact I.
Defined.

(** X13. When a category name is taken by a file of the working directory,
    the run stops in [create_folders], before any move: its log is the one
    error line for the [FileExistsError], and every entry of the working
    directory is where it was, unchanged. *)
Theorem X13_run_stops_before_moving (downloads_name : string)
    (denied : string → bool) (fn : rule_table) (rules : filename_rules)
    (d : listing) (c : string)
    (Hcategory : c ∈ Dict.keys fn ∨ c ∈ Dict.keys rules)
    (Hfile : Dict.get c d = Some File) :
  ∃ c', (c' ∈ Dict.keys fn ∨ c' ∈ Dict.keys rules)
        ∧ Dict.get c' d = Some File
        ∧ log (main downloads_name denied fn rules d)
          = [Error_occurred (FileExistsError c')]
        ∧ extends d (downloads (main downloads_name denied fn rules d)).
Proof.
  pose proof (create_folders_extends d fn rules) as Hext.
  destruct (create_folders d fn rules) as [d' [e|]] eqn:E; simpl in *.
  - destruct (create_folders_raise _ _ _ _ _ E) as (c' & Hc' & -> & Hfile').
    exists c'. rewrite (main_raised _ _ _ _ _ _ _ E). auto.
  - by destruct (create_folders_None _ _ _ _ c E Hcategory).
Qed.

(** X13 at a working directory with a file named [Audio]. *)
Lemma X13_witness :
  ∃ c', (c' ∈ Dict.keys folder_names ∨ c' ∈ Dict.keys filename_sorting_rules)
        ∧ Dict.get c' [("song.mp3", File); ("Audio", File)] = Some File
        ∧ log (main "Downloads" (fun _ => false) folder_names
                 filename_sorting_rules [("song.mp3", File); ("Audio", File)])
          = [Error_occurred (FileExistsError c')]
        ∧ extends [("song.mp3", File); ("Audio", File)]
            (downloads (main "Downloads" (fun _ => false) folder_names
                          filename_sorting_rules
                          [("song.mp3", File); ("Audio", File)])).
Proof.
  apply (X13_run_stops_before_moving "Downloads" (fun _ => false) folder_names
           filename_sorting_rules [("song.mp3", File); ("Audio", File)] "Audio").
  - left. apply (bool_decide_unpack _). vm_compute. exact I.
  - reflexivity.
Defined.

(** ** move_folders *)

Lemma move_folders_step_spec (denied : string → bool) (fn : rule_table)
    (w : world) (x : string) :
  let res := move_folders_step denied fn w x in
  kept ["Others"] (downloads w) (downloads res.1)
  ∧ (∀ k, k ∈ Dict.keys fn → k ≠ "Others" →
          Dict.get k (downloads res.1) = Dict.get k (downloads w))
  ∧ ∃ ms, log res.1 = log w ++ ms
          ∧ Forall (fun m => ∃ y, m = Folder_already_exists y "Others") ms.
Proof.
  unfold move_folders_step.
  destruct (decide _) as [[Hx HxO]|_].
  2:{ simpl. split; [apply kept_refl|]. split; [done|].
      exists []. by rewrite app_nil_r. }
  destruct (negb _).
  2:{ simpl. split; [apply kept_refl|]. split; [done|].
      eexists. split; [done|]. repeat constructor. by eexists. }
  destruct (rename_into denied x "Others" (downloads w)) as [d2|e] eqn:E.
  2:{ simpl. split; [apply kept_refl|]. split; [done|].
      exists []. by rewrite app_nil_r. }
  apply rename_into_Ok in E as (entry & ch & Hentry & _ & _ & Hch & _ & ->).
  simpl. split; [|split].
  - apply moved_kept; [|by left|done|done].
    by intros ->%list_elem_of_singleton.
  - intros k Hk HkO. rewrite moved_get, decide_False by done.
    by rewrite decide_False by (by intros ->).
  - exists []. by rewrite app_nil_r.
Qed.

(** X14. [move_folders] moves folders into [Others] only: a key of the rule
    table other than ["Others"] keeps its entry as it is, the folder [Others]
    keeps the entries it had and may get new ones behind them, and every
    other entry is where it was or, unchanged, in [Others].  The only lines
    it logs are the warnings for folders whose name is taken in [Others]. *)
Theorem X14_move_folders_only_fills_Others (denied : string → bool)
    (folders : list string) (fn : rule_table) (w : world) :
  let w' := (move_folders denied folders fn w).1 in
  (∀ x entry, x ≠ "Others" → Dict.get x (downloads w) = Some entry →
     Dict.get x (downloads w') = Some entry
     ∨ ((x ∉ Dict.keys fn)
        ∧ ∃ children, Dict.get "Others" (downloads w') = Some (Dir children)
                      ∧ (x, entry) ∈ children))
  ∧ (∀ children, Dict.get "Others" (downloads w) = Some (Dir children) →
       ∃ more, Dict.get "Others" (downloads w')
               = Some (Dir (children ++ more)))
  ∧ ∃ ms, log w' = log w ++ ms
          ∧ Forall (fun m => ∃ y, m = Folder_already_exists y "Others") ms.
Proof.
  assert (G : ∀ w,
    let w' := (move_folders denied folders fn w).1 in
    kept ["Others"] (downloads w) (downloads w')
    ∧ (∀ k, k ∈ Dict.keys fn → k ≠ "Others" →
            Dict.get k (downloads w') = Dict.get k (downloads w))
    ∧ ∃ ms, log w' = log w ++ ms
            ∧ Forall (fun m => ∃ y, m = Folder_already_exists y "Others") ms).
  { clear w. induction folders as [|x l IH]; intros w.
    - simpl. split; [apply kept_refl|]. split; [done|].
      exists []. by rewrite app_nil_r.
    - cbn [move_folders].
      destruct (move_folders_step_spec denied fn w x)
        as (Hk & Hcat & ms & Hlog & Hms).
      destruct (move_folders_step denied fn w x) as [w1 [e|]]; simpl in *.
      + split; [done|]. split; [done|]. by exists ms.
      + destruct (IH w1) as (Hk' & Hcat' & ms' & Hlog' & Hms').
        split; [by eapply kept_trans|]. split.
        * intros k Hkin HkO. by rewrite Hcat', Hcat.
        * exists (ms ++ ms'). rewrite Hlog', Hlog, app_assoc.
          split; [done|]. by apply Forall_app. }
  intros w'. destruct (G w) as ((H1 & H2 & _) & Hcat & Hlog).
  fold w' in H1, H2, Hcat, Hlog. split; [|split; [|done]].
  - intros x entry HxO Hget.
    destruct (H1 x entry) as [H|(c & ch & ->%list_elem_of_singleton & Hch & Hin)];
      [by intros ->%list_elem_of_singleton | done | by left |].
    destruct (decide (x ∈ Dict.keys fn)) as [Hx|Hx].
    + left. by rewrite Hcat.
    + right. split; [done|]. by exists ch.
  - intros ch Hch. apply H2; [by left | done].
Qed.

(** ** What a run leaves *)

(** X15. With ["Others"] among the categories, distinct names in the working
    directory and no category name taken by a file, a run leaves a working
    directory whose entries have distinct names and in which every category
    has its folder; and every file it leaves in the working directory is one
    whose name is taken in its target folder or whose rename is refused. *)
Theorem X15_run_leaves_only_stuck_files (downloads_name : string)
    (denied : string → bool) (fn : rule_table) (rules : filename_rules)
    (d0 : listing)
    (HOthers : "Others" ∈ Dict.keys fn ∨ "Others" ∈ Dict.keys rules)
    (Hnames : NoDup (Dict.keys d0))
    (Hfree : ∀ c, c ∈ Dict.keys fn ∨ c ∈ Dict.keys rules →
                  Dict.get c d0 ≠ Some File) :
  let d1 := downloads (main downloads_name denied fn rules d0) in
  NoDup (Dict.keys d1)
  ∧ (∀ c, c ∈ Dict.keys fn ∨ c ∈ Dict.keys rules → is_folder_in c d1)
  ∧ (∀ f, Dict.get f d1 = Some File →
          exists_in
            (determine_target_folder f rules (map_extensions_to_folder fn)
               "Others") f d1 = true
          ∨ denied f = true).
Proof.
  intros d1.
  assert (HO : "Others" ∈ combine_categories fn rules)
    by by apply elem_of_combine_categories.
  destruct (main_spec downloads_name denied fn rules HO d0 Hnames)
    as [[e He]|([Hnd Hcats] & Hstuck & _)].
  - destruct (create_folders_raise _ _ _ _ _ He) as (c & Hc & _ & Hfile).
    by destruct (Hfree c Hc).
  - split; [done|]. split; [|done].
    intros c Hc. by apply Hcats, elem_of_combine_categories.
Qed.

(** X15 at a directory with a collision and a refused rename. *)
Lemma X15_witness :
  let d1 := downloads
              (main "Downloads" (fun name => bool_decide (name = "locked.pdf"))
                 folder_names filename_sorting_rules
                 [("a.mp3", File); ("locked.pdf", File); ("b.ogg", File);
                  ("Audio", Dir [("a.mp3", File)])]) in
  NoDup (Dict.keys d1)
  ∧ (∀ c, c ∈ Dict.keys folder_names ∨ c ∈ Dict.keys filename_sorting_rules →
          is_folder_in c d1)
  ∧ (∀ f, Dict.get f d1 = Some File →
          exists_in
            (determine_target_folder f filename_sorting_rules
               (map_extensions_to_folder folder_names) "Others") f d1 = true
          ∨ bool_decide (f = "locked.pdf") = true).
Proof.
  apply (X15_run_leaves_only_stuck_files "Downloads"
           (fun name => bool_decide (name = "locked.pdf"))
           folder_names filename_sorting_rules
           [("a.mp3", File); ("locked.pdf", File); ("b.ogg", File);
            ("Audio", Dir [("a.mp3", File)])]).
  - left. apply (bool_decide_unpack _). vm_compute. exact I.
  - apply (bool_decide_unpack _). vm_compute. exact I.
  - intros c Hc Hget. simpl in Hget.
    repeat match type of Hget with
           | context [decide (c = ?n)] =>
               destruct (decide (c = n)) as [->|_];
               [first [discriminate Hget
                      | destruct Hc as [Hc|Hc];
                        apply (bool_decide_pack _) in Hc; vm_compute in Hc;
                        destruct Hc]|]
           end.
    discriminate Hget.
Defined.

(** ** What the log says *)

Lemma move_files_log_elem (denied : string → bool) (files : list string)
    (em : gmap string string) (rules : filename_rules) (w : world) :
  ∃ ms, log (move_files denied files em rules w) = log w ++ ms
        ∧ Forall (fun m =>
                    (∀ x c, m ≠ Moved_folder x c)
                    ∧ ∀ f c, m = Moved f c →
                             f ∈ files
                             ∧ c = determine_target_folder f rules em "Others")
            ms.
Proof.
  unfold move_files. revert w. induction files as [|f files IH]; intros w.
  - exists []. simpl. by rewrite app_nil_r.
  - simpl. destruct (move_file_log denied em rules w f) as (m & Hm & Hshape).
    destruct (IH (move_file denied em rules w f)) as (ms & Hms & Hall).
    exists (m :: ms). rewrite Hms, Hm, <- app_assoc. split; [done|].
    constructor.
    + split.
      * intros x c ->. destruct Hshape as [?|[[e ?]|?]]; discriminate.
      * intros g c ->. destruct Hshape as [[= -> ->]|[[e ?]|?]];
          [|discriminate..]. split; [by left | done].
    + eapply Forall_impl; [exact Hall|]. intros m' [H1 H2]. split; [done|].
      intros g c Hg. destruct (H2 g c Hg). split; [by right | done].
Qed.

Section log.
Variable downloads_name : string.
Variable denied : string → bool.
Variable fn : rule_table.
Variable rules : filename_rules.
Hypothesis HOthers : "Others" ∈ combine_categories fn rules.

Local Abbreviation cats := (combine_categories fn rules).
Local Abbreviation em := (map_extensions_to_folder fn).

(** A line of the folder loop, read in the directory [d]: not a [Moved]
    line, and a [Moved_folder] line only for a folder of [d] that is not a
    category, with the classification of its children. *)
Local Abbreviation folder_line d :=
  (fun m => (∀ f c, m ≠ Moved f c)
            ∧ ∀ y c, m = Moved_folder y c →
                     (y ∉ cats)
                     ∧ ∃ items, Dict.get y d = Some (Dir items)
                                ∧ classify_folder_by_content items em cats = Ok c
                                ∧ downloads_name ≠ c).

Lemma move_folder_line (d : listing) (x : string) (lg : list message) :
  ∃ ms, log (move_folder downloads_name denied cats em (World d lg) x).1
        = lg ++ ms
        ∧ Forall (folder_line d) ms.
Proof.
  unfold move_folder, iterdir. simpl.
  destruct (decide (x ∈ cats)) as [|Hxc].
  { eexists. split; [done|]. constructor; [|constructor].
    split; intros; discriminate. }
  destruct (Dict.get x d) as [[|items]|] eqn:Hx;
    try (exists []; split; [by rewrite app_nil_r | constructor]).
  destruct (classify_folder_by_content items em cats) as [c|e] eqn:Hcl;
    [|exists []; split; [by rewrite app_nil_r | constructor]].
  destruct (decide (downloads_name ≠ c)) as [Hdn|Hdn].
  2:{ eexists. split; [done|]. constructor; [|constructor].
    split; intros; discriminate. }
  destruct (mkdir_exist_ok c d) as [d1|e];
    [|exists []; split; [by rewrite app_nil_r | constructor]].
  destruct (negb (exists_in c x d1)).
  2:{ eexists. split; [done|]. constructor; [|constructor].
    split; intros; discriminate. }
  destruct (rename_into denied x c d1) as [d2|e];
    [|exists []; split; [by rewrite app_nil_r | constructor]].
  exists [Moved_folder x c]. split; [done|].
  constructor; [|constructor]. split; [intros; discriminate|].
  intros y c' [= <- <-]. split; [done|]. by exists items.
Qed.

Lemma move_folders_loop_log (l : list string) (d : listing)
    (lg : list message) :
  well_formed cats d →
  ∃ ms, log (move_folders_loop downloads_name denied l cats em (World d lg)).1
        = lg ++ ms
        ∧ Forall (folder_line d) ms.
Proof.
  revert d lg. induction l as [|x l IH]; intros d lg Hwf.
  - exists []. simpl. by rewrite app_nil_r.
  - cbn [move_folders_loop].
    destruct (move_folder_line d x lg) as (ms1 & Hlog1 & Hall1).
    destruct (move_folder_cases downloads_name denied fn rules HOthers d x lg Hwf)
      as [Hd|(items & c & ch & Hxc & Hc & Hx & Hch & E)].
    + destruct (move_folder downloads_name denied cats em (World d lg) x)
        as [[d1 lg1] [e|]]; simpl in Hd, Hlog1; subst d1 lg1.
      * by exists ms1.
      * destruct (IH d (lg ++ ms1) Hwf) as (ms2 & -> & Hall2).
        exists (ms1 ++ ms2). rewrite app_assoc. split; [done|].
        by apply Forall_app.
    + rewrite E in Hlog1 |- *. simpl in Hlog1.
      destruct (IH (Dict.put c (Dir (ch ++ [(x, Dir items)])) (Dict.remove x d))
                  (lg ++ [Moved_folder x c])) as (ms2 & -> & Hall2);
        [by eapply moved_well_formed|].
      exists (ms1 ++ ms2). rewrite Hlog1, app_assoc. split; [done|].
      apply Forall_app. split; [done|].
      eapply Forall_impl; [exact Hall2|]. intros m [H1 H2]. split; [done|].
      intros y c' Hm. destruct (H2 y c' Hm) as (Hyc & its & Hy & Hrest).
      split; [done|]. exists its. split; [|done].
      rewrite moved_get in Hy. rewrite decide_False in Hy by (by intros ->).
      by destruct (decide (y = x)).
Qed.

Lemma move_files_get_back (files : list string) (d : listing)
    (lg : list message) (x : string) (items : listing) :
  well_formed cats d → (∀ f, f ∈ files → ¬ is_folder_in f d) →
  x ∉ cats →
  Dict.get x (downloads (move_files denied files em rules (World d lg)))
  = Some (Dir items) →
  Dict.get x d = Some (Dir items).
Proof.
  intros Hwf Hnf Hx Hget.
  revert d lg Hwf Hnf Hget. unfold move_files.
  induction files as [|f files IH]; intros d lg Hwf Hnf Hget; [done|].
  cbn [fold_left] in Hget.
  assert (Hf : ¬ is_folder_in f d) by (apply Hnf; by left).
  destruct (move_file denied em rules (World d lg) f) as [d1 lg1] eqn:E.
  destruct (move_file_step denied fn rules HOthers d f lg Hwf Hf)
    as [[Hd _]|(c & ch & Hc & Hfile & Hch & Hd)];
    rewrite E in Hd; simpl in Hd; subst d1.
  - apply (IH d lg1); [done| |done]. intros g Hg. apply Hnf. by right.
  - assert (Hfc : f ∉ cats).
    { intros Hin. apply Hf. by apply Hwf. }
    apply IH in Hget.
    + rewrite moved_get in Hget.
      rewrite decide_False in Hget by (by intros ->).
      by destruct (decide (x = f)).
    + by eapply moved_well_formed.
    + intros g Hg [its Hits]. rewrite moved_get in Hits.
      destruct (decide (g = c)) as [->|Hgc].
      * apply (Hnf c); [by right|]. by exists ch.
      * destruct (decide (g = f)); [done|].
        apply (Hnf g); [by right|]. by exists its.
Qed.

Lemma mkdir_each_get_back (l : list string) (d d' : listing) (r : option exn)
    (x : string) (entry : node) :
  mkdir_each l d = (d', r) → x ∉ l →
  Dict.get x d' = Some entry → Dict.get x d = Some entry.
Proof.
  revert d. induction l as [|y l IH]; intros d H Hx Hget; simpl in H.
  - by injection H as <- <-.
  - apply not_elem_of_cons in Hx as [Hxy Hx].
    destruct (mkdir_exist_ok y d) as [d1|e] eqn:E.
    + apply (IH d1 H Hx) in Hget.
      apply mkdir_exist_ok_spec in E as [[-> _]|[-> Hy]]; [done|].
      rewrite get_snoc_None in Hget by done. by rewrite decide_False in Hget.
    + by injection H as <- <-.
Qed.

Lemma main_log (d0 : listing) :
  NoDup (Dict.keys d0) →
  (∀ f c, Moved f c ∈ log (main downloads_name denied fn rules d0) →
          Dict.get f d0 = Some File
          ∧ c = determine_target_folder f rules em "Others")
  ∧ (∀ x c, Moved_folder x c ∈ log (main downloads_name denied fn rules d0) →
            (x ∉ cats)
            ∧ ∃ items, Dict.get x d0 = Some (Dir items)
                       ∧ classify_folder_by_content items em cats = Ok c
                       ∧ downloads_name ≠ c).
Proof.
  intros Hnd. unfold main.
  destruct (get_files_and_folders d0) as [files folders] eqn:E0.
  assert (Hfiles0 : files = (get_files_and_folders d0).1) by by rewrite E0.
  clear E0. destruct (create_folders d0 fn rules) as [dA [e|]] eqn:EA.
  { simpl. split; intros ? ? [=]%list_elem_of_singleton. }
  destruct (create_folders_spec fn rules d0 dA EA Hnd)
    as (HwfA & _ & _ & HextA).
  assert (Hnf : ∀ f, f ∈ files → ¬ is_folder_in f dA).
  { intros f Hf [items Hitems]. subst files.
    apply files_are_files in Hf; [|done]. apply HextA in Hf. congruence. }
  destruct (move_files_log_elem denied files em rules (World dA []))
    as (msB & HlogB & HallB).
  destruct (move_files_spec denied fn rules HOthers files dA [] HwfA Hnf)
    as (HwfB & _).
  pose proof (fun x items => move_files_get_back files dA [] x items HwfA Hnf)
    as HbackB.
  destruct (move_files denied files em rules (World dA [])) as [dB lgB] eqn:EB.
  simpl in HlogB, HwfB, HbackB. subst lgB.
  unfold move_folders_based_on_content.
  destruct (move_folders_loop_log folders dB msB HwfB) as (msC & HlogC & HallC).
  destruct (move_folders_loop downloads_name denied folders cats em
              (World dB msB)) as [w' r].
  simpl in HlogC.
  assert (Hback : ∀ x items, x ∉ cats → Dict.get x dB = Some (Dir items) →
                             Dict.get x d0 = Some (Dir items)).
  { intros x items Hx Hget. apply HbackB in Hget; [|done].
    unfold create_folders in EA.
    destruct (mkdir_each (Dict.keys fn) d0) as [d1 [e1|]] eqn:E1; [done|].
    apply (mkdir_each_get_back _ _ _ _ _ _ E1).
    - intros Hin. apply Hx, elem_of_combine_categories. by left.
    - apply (mkdir_each_get_back _ _ _ _ _ _ EA); [|done].
      intros Hin. apply Hx, elem_of_combine_categories. by right. }
  rewrite Forall_forall in HallB, HallC.
  assert (Hlog : ∀ m, is_move m = true →
                      m ∈ log (match r with
                               | Some e => logging (Error_occurred e) w'
                               | None => logging Organized w'
                               end) →
                      m ∈ msB ∨ m ∈ msC).
  { intros m Hm Hin.
    assert (Hin' : m ∈ (msB ++ msC) ++ [match r with
                                         | Some e => Error_occurred e
                                         | None => Organized
                                         end]).
    { rewrite <- HlogC. by destruct r. }
    apply elem_of_app in Hin' as [Hin'|Hin'%list_elem_of_singleton].
    - by apply elem_of_app in Hin'.
    - subst m. by destruct r. }
  split.
  - intros f c Hin. destruct (Hlog (Moved f c) eq_refl Hin) as [HB|HC].
    + destruct (HallB _ HB) as [_ H]. destruct (H f c eq_refl) as [Hf ->].
      split; [|done]. subst files. by apply files_are_files.
    + destruct (HallC _ HC) as [H _]. by destruct (H f c).
  - intros x c Hin. destruct (Hlog (Moved_folder x c) eq_refl Hin) as [HB|HC].
    + destruct (HallB _ HB) as [H _]. by destruct (H x c).
    + destruct (HallC _ HC) as [_ H].
      destruct (H x c eq_refl) as (Hx & items & Hget & Hcl & Hdn).
      split; [done|]. exists items. auto.
Qed.

End log.

(** X16. With ["Others"] among the categories, the moves a run logs are
    those the classifiers decide on the directory as the run found it: a
    [Moved] line names a file of the working directory and the folder
    [determine_target_folder] gives for it, and a [Moved_folder] line names a
    folder of the working directory that is not a category, with the
    classification of the children it had when the run started: the files
    the run moves do not change how the folders are classified. *)
Theorem X16_logged_moves_follow_the_classifiers (downloads_name : string)
    (denied : string → bool) (fn : rule_table) (rules : filename_rules)
    (d0 : listing)
    (HOthers : "Others" ∈ Dict.keys fn ∨ "Others" ∈ Dict.keys rules)
    (Hnames : NoDup (Dict.keys d0)) :
  (∀ f c, Moved f c ∈ log (main downloads_name denied fn rules d0) →
          Dict.get f d0 = Some File
          ∧ c = determine_target_folder f rules (map_extensions_to_folder fn)
                  "Others")
  ∧ (∀ x c, Moved_folder x c ∈ log (main downloads_name denied fn rules d0) →
            (x ∉ combine_categories fn rules)
            ∧ ∃ items,
                Dict.get x d0 = Some (Dir items)
                ∧ classify_folder_by_content items (map_extensions_to_folder fn)
                    (combine_categories fn rules) = Ok c
                ∧ downloads_name ≠ c).
Proof.
  assert (HO : "Others" ∈ combine_categories fn rules)
    by by apply elem_of_combine_categories.
  destruct (main_log downloads_name denied fn rules HO d0 Hnames) as [Hf Hd].
  split; [exact Hf | exact Hd].
Qed.

(** X16 at a directory where a file goes into a folder before the folders
    are classified. *)
Lemma X16_witness :
  (∀ f c,
     Moved f c ∈ log (main "Downloads" (fun _ => false) folder_names
                        filename_sorting_rules
                        [("a.pdf", File); ("trip", Dir [("x.mp3", File)])]) →
     Dict.get f [("a.pdf", File); ("trip", Dir [("x.mp3", File)])] = Some File
     ∧ c = determine_target_folder f filename_sorting_rules
             (map_extensions_to_folder folder_names) "Others")
  ∧ (∀ x c,
       Moved_folder x c ∈ log (main "Downloads" (fun _ => false) folder_names
                                 filename_sorting_rules
                                 [("a.pdf", File);
                                  ("trip", Dir [("x.mp3", File)])]) →
       (x ∉ combine_categories folder_names filename_sorting_rules)
       ∧ ∃ items,
           Dict.get x [("a.pdf", File); ("trip", Dir [("x.mp3", File)])]
           = Some (Dir items)
           ∧ classify_folder_by_content items
               (map_extensions_to_folder folder_names)
               (combine_categories folder_names filename_sorting_rules) = Ok c
           ∧ "Downloads" ≠ c).
Proof.
  apply (X16_logged_moves_follow_the_classifiers "Downloads" (fun _ => false)
           folder_names filename_sorting_rules
           [("a.pdf", File); ("trip", Dir [("x.mp3", File)])]).
  - left. apply (bool_decide_unpack _). vm_compute. exact I.
  - apply (bool_decide_unpack _). vm_compute. exact I.
Defined.

(** ** Targets and names without an extension *)

(** X17. When [create_folders] has not raised and ["Others"] is among the
    categories of the rule tables, the target folder of every file exists in
    the working directory: no file rename fails for a missing folder. *)
Theorem X17_target_folder_exists (fn : rule_table) (rules : filename_rules)
    (d d' : listing) (file : string)
    (HOthers : "Others" ∈ Dict.keys fn ∨ "Others" ∈ Dict.keys rules)
    (Hcreated : create_folders d fn rules = (d', None)) :
  is_folder_in
    (determine_target_folder file rules (map_extensions_to_folder fn) "Others")
    d'.
Proof.
  assert (HO : "Others" ∈ combine_categories fn rules)
    by by apply elem_of_combine_categories.
  pose proof (determine_target_folder_category fn rules HO file) as Hc.
  apply elem_of_combine_categories in Hc.
  unfold create_folders in Hcreated.
  destruct (mkdir_each (Dict.keys fn) d) as [d1 [e1|]] eqn:E1; [done|].
  destruct (mkdir_each_spec _ _ _ _ E1) as (_ & _ & Hall1 & _).
  destruct (mkdir_each_spec _ _ _ _ Hcreated) as (Hext2 & _ & Hall2 & _).
  destruct Hc as [Hc|Hc]; [|by apply Hall2].
  apply (extends_folder _ _ _ Hext2). by apply Hall1.
Qed.

(** X17 at a file without a known extension, in an empty directory. *)
Lemma X17_witness :
  is_folder_in
    (determine_target_folder "notes.xyz" filename_sorting_rules
       (map_extensions_to_folder folder_names) "Others")
    (create_folders [] folder_names filename_sorting_rules).1.
Proof.
  apply (X17_target_folder_exists folder_names filename_sorting_rules []
           (create_folders [] folder_names filename_sorting_rules).1
           "notes.xyz").
  - left. apply (bool_decide_unpack _). vm_compute. exact I.
  - vm_compute. reflexivity.
Defined.

Lemma rfind_dot_only_leading (rest : string) :
  Str.contains "." rest = false → Str.rfind "." (String "." rest) = Some 0.
Proof. intros H. simpl. by rewrite contains_false_rfind. Qed.

(** X18. A name without a dot, a name whose only dot is the first character
    (a hidden file such as [.bashrc]) and a name whose last dot is its last
    character have no suffix: the name is its own stem, the file is looked up
    under the empty extension, and when no filename rule matches and the
    index has no entry for the empty extension it goes to the default
    folder. *)
Theorem X18_names_without_extension (name : string)
    (Hname : Str.contains "." name = false
             ∨ (∃ rest, name = String "." rest ∧ Str.contains "." rest = false)
             ∨ (∃ s, name = String.append s ".")) :
  Path.stem name = name
  ∧ file_extension name = ""
  ∧ ∀ rules (extension_map : gmap string string) default_folder,
      match_filename_rules name rules = None →
      extension_map !! "" = None →
      determine_target_folder name rules extension_map default_folder
      = default_folder.
Proof.
  assert (H : Path.stem name = name ∧ Path.suffix name = "").
  { unfold Path.stem, Path.suffix.
    destruct Hname as [Hno|[(rest & -> & Hrest)|(s & ->)]].
    - by rewrite contains_false_rfind.
    - by rewrite rfind_dot_only_leading.
    - rewrite (rfind_append "." s "") by done.
      unfold Path.has_suffix. rewrite length_append. simpl.
      replace (String.length s + 1 - 1) with (String.length s) by lia.
      rewrite Nat.ltb_irrefl, andb_false_r. done. }
  destruct H as [Hstem Hsuffix].
  assert (Hext : file_extension name = "")
    by (unfold file_extension; by rewrite Hsuffix).
  split; [done|]. split; [done|].
  intros rules em dflt Hrules Hem. unfold determine_target_folder.
  by rewrite Hstem, Hrules, Hext, Hem.
Qed.

(** X18 at a hidden file, with the tables of the program. *)
Lemma X18_witness :
  Path.stem ".bashrc" = ".bashrc"
  ∧ file_extension ".bashrc" = ""
  ∧ determine_target_folder ".bashrc" filename_sorting_rules
      (map_extensions_to_folder folder_names) "Others" = "Others".
Proof.
  destruct (X18_names_without_extension ".bashrc") as (Hstem & Hext & Htarget).
  { right; left. exists "bashrc". split; reflexivity. }
  split; [done|]. split; [done|].
  apply Htarget; vm_compute; reflexivity.
Defined.
